(** * Double-entry ledger: the in-memory database, its REST handlers and the
      tool-call handler, embedded from [src/db/database.ts], [src/api/routes.ts]
      and the MCP server module.

    Conventions of the embedding.

    - A JavaScript [number] is a rational or [NaN].  An amount field that is
      absent from a request body ([undefined]) behaves as [NaN] in every
      arithmetic operation and comparison the code performs on it
      ([+], [-], [>], [|| 0], [Math.abs]), so it is represented by [NaN] too.
      Every concrete amount used below is a small integer or a dyadic
      fraction, on which IEEE double arithmetic is exact.
    - Identifiers are UUID strings in the source.  The model draws them from a
      counter kept next to the two arrays of the database; only equality and
      freshness of identifiers matter.
    - [new Date()] is an input [now] of every operation that stamps a time.
    - A string-valued property that may be [undefined] is an [option string]. *)

From Stdlib Require Import QArith Qabs Lqa Lia Ascii.
From stdpp Require Import base option list gmap strings.

Local Open Scope string_scope.
Local Open Scope list_scope.

(** ** JavaScript numbers *)

Inductive number : Type :=
| Num (q : Q)
| NaN.

Module Number.

Definition zero : number := Num 0.

(** [x + y] *)
Definition add (x y : number) : number :=
  match x, y with
  | Num a, Num b => Num (a + b)
  | _, _ => NaN
  end.

(** [x - y] *)
Definition sub (x y : number) : number :=
  match x, y with
  | Num a, Num b => Num (a - b)
  | _, _ => NaN
  end.

(** [Math.abs(x)] *)
Definition abs (x : number) : number :=
  match x with
  | Num a => Num (Qabs a)
  | NaN => NaN
  end.

(** [x > y]: false as soon as one side is [NaN]. *)
Definition gt (x y : number) : bool :=
  match x, y with
  | Num a, Num b => negb (Qle_bool a b)
  | _, _ => false
  end.

(** Truthiness of a number: [0] and [NaN] are falsy. *)
Definition truthy (x : number) : bool :=
  match x with
  | Num a => negb (Qeq_bool a 0)
  | NaN => false
  end.

(** [x || 0] *)
Definition orZero (x : number) : number :=
  if truthy x then x else zero.

(** Value equality of two numbers, rationals being compared by [Qeq]. *)
Definition eqv (x y : number) : Prop :=
  match x, y with
  | Num a, Num b => (a == b)%Q
  | NaN, NaN => True
  | _, _ => False
  end.

Definition isNum (x : number) : Prop :=
  match x with Num _ => True | NaN => False end.

(** The rational carried by a number ([0] for [NaN]). *)
Definition val (x : number) : Q :=
  match x with Num a => a | NaN => 0%Q end.

End Number.

(** ** Types of [src/api/types.ts] *)

Definition Id := nat.
Definition Time := nat.

Inductive AccountType : Type :=
| asset | liability | equity | revenue | expense.

Global Instance AccountType_eq_dec : EqDecision AccountType.
Proof. solve_decision. Defined.

Record Account : Type := mkAccount {
  a_id : Id;
  a_code : string;
  a_name : option string;
  a_type : AccountType;
  a_category : option string;
  a_parentId : option Id;
  a_createdAt : Time;
  a_updatedAt : Time
}.

Record JournalLine : Type := mkJournalLine {
  l_id : Id;
  l_journalEntryId : Id;
  l_accountId : Id;
  l_accountName : option string;
  debitAmount : number;
  creditAmount : number
}.

Record JournalEntry : Type := mkJournalEntry {
  e_id : Id;
  e_date : option string;
  e_description : option string;
  e_lines : list JournalLine;
  e_createdAt : Time;
  e_updatedAt : Time;
  e_isClosed : option bool
}.

(** The [Database] object: its two private arrays, and the UUID supply. *)
Record Database : Type := mkDatabase {
  accounts : list Account;
  journalEntries : list JournalEntry;
  nextUuid : nat
}.

(** ** Array helpers *)

(** [Array.prototype.findIndex]; [None] stands for [-1]. *)
Fixpoint findIndex {A : Type} (p : A -> bool) (l : list A) : option nat :=
  match l with
  | [] => None
  | x :: r => if p x then Some 0 else S <$> findIndex p r
  end.

(** [Array.prototype.some] *)
Definition some {A : Type} (p : A -> bool) (l : list A) : bool := existsb p l.

(** Comparison of ISO dates is JavaScript's [<=] on strings: lexicographic on
    code units. *)
Definition date_le (a b : string) : bool := String.leb a b.

(** Truthiness of a string: only the empty string is falsy. *)
Definition nonEmpty (s : string) : bool := negb (String.eqb s "").

(** [entry.date <= asOfDate] on a stored entry, whose date may have been
    overwritten by [undefined]: the comparison is then false. *)
Definition dateUpTo (d : string) (entry : JournalEntry) : bool :=
  match e_date entry with
  | Some x => date_le x d
  | None => false
  end.

(** [if (asOfDate) entries = entries.filter(e => e.date <= asOfDate)] *)
Definition upTo (asOfDate : option string) (entries : list JournalEntry)
  : list JournalEntry :=
  match asOfDate with
  | Some d => if nonEmpty d then List.filter (dateUpTo d) entries else entries
  | None => entries
  end.

(** [map.get(k) || 0] on a [Map<string, number>] *)
Definition getOrZero (m : gmap Id number) (k : Id) : number :=
  match m !! k with
  | Some v => Number.orZero v
  | None => Number.zero
  end.

(** ** [class Database] *)

(** A line as handed to [Database.createJournalEntry]. *)
Record LineInput : Type := mkLineInput {
  li_accountId : Id;
  li_debitAmount : number;
  li_creditAmount : number
}.

(** [Partial<Omit<Account, 'id' | 'createdAt'>>].  For [name] and [category]
    the outer option says whether the key is present in the object, the inner
    one whether its value is a string or [undefined]. *)
Record AccountUpdates : Type := mkAccountUpdates {
  ua_code : option string;
  ua_name : option (option string);
  ua_type : option AccountType;
  ua_category : option (option string);
  ua_parentId : option (option Id);
  ua_updatedAt : option Time
}.

(** [Partial<Omit<JournalEntry, 'id' | 'createdAt' | 'lines'>>] *)
Record EntryUpdates : Type := mkEntryUpdates {
  ue_date : option (option string);
  ue_description : option (option string);
  ue_updatedAt : option Time;
  ue_isClosed : option bool
}.

Record TrialBalance : Type := mkTrialBalance {
  totalDebit : number;
  totalCredit : number
}.

Record BalanceSheet : Type := mkBalanceSheet {
  bs_assets : number;
  bs_liabilities : number;
  bs_equity : number
}.

Module Db.

Definition getAccountById (db : Database) (id : Id) : option Account :=
  List.find (fun acc => Nat.eqb (a_id acc) id) (accounts db).

Definition getAccountByCode (db : Database) (code : string) : option Account :=
  List.find (fun acc => String.eqb (a_code acc) code) (accounts db).

Definition getJournalEntryById (db : Database) (id : Id) : option JournalEntry :=
  List.find (fun entry => Nat.eqb (e_id entry) id) (journalEntries db).

Definition createAccount (now : Time) (code : string) (name : option string)
    (type : AccountType) (category : option string) (parentId : option Id)
    (db : Database) : Account * Database :=
  let newAccount :=
    {| a_id := nextUuid db; a_code := code; a_name := name; a_type := type;
       a_category := category; a_parentId := parentId;
       a_createdAt := now; a_updatedAt := now |} in
  (newAccount,
   {| accounts := accounts db ++ [newAccount];
      journalEntries := journalEntries db;
      nextUuid := S (nextUuid db) |}).

(** [{ ...this.accounts[index], ...updates, updatedAt: new Date() }] *)
Definition spreadAccount (acc : Account) (updates : AccountUpdates) (now : Time)
  : Account :=
  {| a_id := a_id acc;
     a_code := default (a_code acc) (ua_code updates);
     a_name := default (a_name acc) (ua_name updates);
     a_type := default (a_type acc) (ua_type updates);
     a_category := default (a_category acc) (ua_category updates);
     a_parentId := default (a_parentId acc) (ua_parentId updates);
     a_createdAt := a_createdAt acc;
     a_updatedAt := now |}.

Definition updateAccount (now : Time) (id : Id) (updates : AccountUpdates)
    (db : Database) : option Account * Database :=
  match findIndex (fun acc => Nat.eqb (a_id acc) id) (accounts db) with
  | None => (None, db)
  | Some index =>
      match accounts db !! index with
      | None => (None, db)
      | Some old =>
          let new := spreadAccount old updates now in
          (Some new,
           {| accounts := <[index := new]> (accounts db);
              journalEntries := journalEntries db;
              nextUuid := nextUuid db |})
      end
  end.

Definition isUsed (db : Database) (id : Id) : bool :=
  some (fun entry => some (fun line => Nat.eqb (l_accountId line) id) (e_lines entry))
       (journalEntries db).

Definition deleteAccount (id : Id) (db : Database) : bool * Database :=
  if isUsed db id then (false, db)
  else
    match findIndex (fun acc => Nat.eqb (a_id acc) id) (accounts db) with
    | None => (false, db)
    | Some index =>
        (true,
         {| accounts := delete index (accounts db);
            journalEntries := journalEntries db;
            nextUuid := nextUuid db |})
    end.

(** The three [lines.map] passes of [createJournalEntry].  [uuidv4()] is
    called once for the entry, then twice per line (line id, and a
    placeholder [journalEntryId] that the second pass overwrites). *)
Definition stampIds (u : nat) (lines : list LineInput) : list JournalLine :=
  imap (fun i line =>
          {| l_id := u + 1 + 2 * i;
             l_journalEntryId := u + 2 + 2 * i;
             l_accountId := li_accountId line;
             l_accountName := None;
             debitAmount := li_debitAmount line;
             creditAmount := li_creditAmount line |}) lines.

Definition setEntryId (entryId : Id) (line : JournalLine) : JournalLine :=
  {| l_id := l_id line;
     l_journalEntryId := entryId;
     l_accountId := l_accountId line;
     l_accountName := l_accountName line;
     debitAmount := debitAmount line;
     creditAmount := creditAmount line |}.

Definition setAccountName (db : Database) (line : JournalLine) : JournalLine :=
  {| l_id := l_id line;
     l_journalEntryId := l_journalEntryId line;
     l_accountId := l_accountId line;
     l_accountName := getAccountById db (l_accountId line) ≫= a_name;
     debitAmount := debitAmount line;
     creditAmount := creditAmount line |}.

Definition createJournalEntry (now : Time) (date description : string)
    (lines : list LineInput) (db : Database) : JournalEntry * Database :=
  let u := nextUuid db in
  let lines1 := stampIds u lines in
  let lines2 := map (setEntryId u) lines1 in
  let lines3 := map (setAccountName db) lines2 in
  let newEntry :=
    {| e_id := u;
       e_date := Some date;
       e_description := Some description;
       e_lines := lines3;
       e_createdAt := now;
       e_updatedAt := now;
       e_isClosed := None |} in
  (newEntry,
   {| accounts := accounts db;
      journalEntries := journalEntries db ++ [newEntry];
      nextUuid := u + 1 + 2 * length lines |}).

(** [{ ...this.journalEntries[index], ...updates, updatedAt: new Date() }] *)
Definition spreadEntry (entry : JournalEntry) (updates : EntryUpdates)
    (now : Time) : JournalEntry :=
  {| e_id := e_id entry;
     e_date := default (e_date entry) (ue_date updates);
     e_description := default (e_description entry) (ue_description updates);
     e_lines := e_lines entry;
     e_createdAt := e_createdAt entry;
     e_updatedAt := now;
     e_isClosed :=
       match ue_isClosed updates with
       | Some b => Some b
       | None => e_isClosed entry
       end |}.

Definition updateJournalEntry (now : Time) (id : Id) (updates : EntryUpdates)
    (db : Database) : option JournalEntry * Database :=
  match findIndex (fun entry => Nat.eqb (e_id entry) id) (journalEntries db) with
  | None => (None, db)
  | Some index =>
      match journalEntries db !! index with
      | None => (None, db)
      | Some old =>
          let new := spreadEntry old updates now in
          (Some new,
           {| accounts := accounts db;
              journalEntries := <[index := new]> (journalEntries db);
              nextUuid := nextUuid db |})
      end
  end.

Definition deleteJournalEntry (id : Id) (db : Database) : bool * Database :=
  match findIndex (fun entry => Nat.eqb (e_id entry) id) (journalEntries db) with
  | None => (false, db)
  | Some index =>
      (true,
       {| accounts := accounts db;
          journalEntries := delete index (journalEntries db);
          nextUuid := nextUuid db |})
  end.

(** [account.type === 'asset' || account.type === 'expense'] *)
Definition debitNormal (t : AccountType) : bool :=
  match t with
  | asset | expense => true
  | _ => false
  end.

Definition getAccountBalance (db : Database) (accountId : Id)
    (asOfDate : option string) : number :=
  match getAccountById db accountId with
  | None => Number.zero
  | Some account =>
      let entries := upTo asOfDate (journalEntries db) in
      fold_left
        (fun balance entry =>
           fold_left
             (fun balance line =>
                if Nat.eqb (l_accountId line) accountId then
                  if debitNormal (a_type account)
                  then Number.add balance
                         (Number.sub (debitAmount line) (creditAmount line))
                  else Number.add balance
                         (Number.sub (creditAmount line) (debitAmount line))
                else balance)
             (e_lines entry) balance)
        entries Number.zero
  end.

(** The two maps of [getTrialBalance] after the "Initialize all accounts"
    loop. *)
Definition initMap (accs : list Account) : gmap Id number :=
  fold_left (fun m account => <[a_id account := Number.zero]> m) accs ∅.

Definition tallyLine (maps : gmap Id number * gmap Id number) (line : JournalLine)
  : gmap Id number * gmap Id number :=
  let '(debitAmounts, creditAmounts) := maps in
  let currentDebit := getOrZero debitAmounts (l_accountId line) in
  let currentCredit := getOrZero creditAmounts (l_accountId line) in
  (<[l_accountId line := Number.add currentDebit (debitAmount line)]> debitAmounts,
   <[l_accountId line := Number.add currentCredit (creditAmount line)]> creditAmounts).

Definition tallyEntries (entries : list JournalEntry)
    (maps : gmap Id number * gmap Id number) : gmap Id number * gmap Id number :=
  fold_left (fun maps entry => fold_left tallyLine (e_lines entry) maps)
            entries maps.

Definition getTrialBalance (db : Database) (asOfDate : option string)
  : TrialBalance :=
  let entries := upTo asOfDate (journalEntries db) in
  let '(debitAmounts, creditAmounts) :=
    tallyEntries entries (initMap (accounts db), initMap (accounts db)) in
  let '(totalDebit, totalCredit) :=
    fold_left
      (fun '(totalDebit, totalCredit) account =>
         let debit := getOrZero debitAmounts (a_id account) in
         let credit := getOrZero creditAmounts (a_id account) in
         (Number.add totalDebit debit, Number.add totalCredit credit))
      (accounts db) (Number.zero, Number.zero) in
  {| totalDebit := totalDebit; totalCredit := totalCredit |}.

Definition balanceLine (balances : gmap Id number) (line : JournalLine)
  : gmap Id number :=
  let current := getOrZero balances (l_accountId line) in
  <[l_accountId line :=
      Number.sub (Number.add current (debitAmount line)) (creditAmount line)]>
    balances.

Definition getBalanceSheet (db : Database) (asOfDate : option string)
  : BalanceSheet :=
  let entries := upTo asOfDate (journalEntries db) in
  let balances :=
    fold_left (fun balances entry => fold_left balanceLine (e_lines entry) balances)
              entries (initMap (accounts db)) in
  let '(assets, liabilities, equity') :=
    fold_left
      (fun '(assets, liabilities, equity') account =>
         let balance := getOrZero balances (a_id account) in
         match a_type account with
         | asset => (Number.add assets balance, liabilities, equity')
         | liability => (assets, Number.sub liabilities balance, equity')
         | equity => (assets, liabilities, Number.sub equity' balance)
         | revenue => (assets, liabilities, Number.sub equity' balance)
         | expense => (assets, liabilities, Number.add equity' balance)
         end)
      (accounts db) (Number.zero, Number.zero, Number.zero) in
  {| bs_assets := assets; bs_liabilities := liabilities; bs_equity := equity' |}.

End Db.

(** ** The seed chart of accounts and the singleton [db] *)

Definition STANDARD_ACCOUNTS : list (Id * string * string * AccountType * string) :=
  [ (0, "100", "現金", asset, "流動資産");
    (1, "101", "預金", asset, "流動資産");
    (2, "110", "売掛金", asset, "流動資産");
    (3, "120", "商品", asset, "流動資産");
    (4, "150", "備品", asset, "固定資産");
    (5, "160", "建物", asset, "固定資産");
    (6, "200", "買掛金", liability, "流動負債");
    (7, "210", "未払金", liability, "流動負債");
    (8, "250", "借入金", liability, "固定負債");
    (9, "300", "資本金", equity, "資本金");
    (10, "310", "利益剰余金", equity, "剰余金");
    (11, "400", "売上", revenue, "売上高");
    (12, "410", "雑収入", revenue, "営業外収益");
    (13, "500", "仕入", expense, "売上原価");
    (14, "510", "給料", expense, "販売費及び一般管理費");
    (15, "520", "広告宣伝費", expense, "販売費及び一般管理費");
    (16, "530", "旅費交通費", expense, "販売費及び一般管理費");
    (17, "540", "消耗品費", expense, "販売費及び一般管理費");
    (18, "550", "減価償却費", expense, "販売費及び一般管理費") ].

(** [new Database()] and [resetDatabase()]: the seed accounts stamped with
    [now], and no journal entry.  The seed identifiers are drawn once, when the
    module is loaded, so a reset keeps them and the supply goes on. *)
Definition seedAccounts (now : Time) : list Account :=
  map (fun '(id, code, name, type, category) =>
         {| a_id := id; a_code := code; a_name := Some name; a_type := type;
            a_category := Some category; a_parentId := None;
            a_createdAt := now; a_updatedAt := now |})
      STANDARD_ACCOUNTS.

Definition newDatabase (now : Time) : Database :=
  {| accounts := seedAccounts now; journalEntries := []; nextUuid := 19 |}.

Definition resetDatabase (now : Time) (db : Database) : Database :=
  {| accounts := seedAccounts now; journalEntries := [];
     nextUuid := nextUuid db |}.

(** ** REST handlers of [src/api/routes.ts] *)

(** The [error] strings of the handlers. *)
Inductive ApiError : Type :=
| MissingRequiredFields        (* 'Missing required fields' *)
| AccountCodeExists            (* 'Account code already exists' *)
| AccountNotFound              (* 'Account not found' *)
| CannotDeleteAccount          (* 'Cannot delete account: not found or in use' *)
| AtLeastTwoLines              (* 'Journal entry must have at least 2 lines' *)
| LineAccountNotFound (accountId : Id)  (* `Account not found: ${line.accountId}` *)
| DebitsCreditsMustBeEqual     (* 'Debits and credits must be equal' *)
| EitherDebitOrCredit          (* 'Each line must have either debit or credit, not both' *)
| JournalEntryNotFound.        (* 'Journal entry not found' *)

(** [res.status(s).json({ data })], [res.status(s).json({ error })] and
    [res.status(204).send()]. *)
Inductive Response (A : Type) : Type :=
| Data (status : nat) (data : A)
| Error (status : nat) (error : ApiError)
| NoContent (status : nat).

Arguments Data {A} status data.
Arguments Error {A} status error.
Arguments NoContent {A} status.

Definition status {A : Type} (r : Response A) : nat :=
  match r with
  | Data s _ | Error s _ | NoContent s => s
  end.

(** Body of [POST /accounts] and [PUT /accounts/:id]. *)
Record AccountBody : Type := mkAccountBody {
  ab_code : option string;
  ab_name : option string;
  ab_type : option AccountType;
  ab_category : option string;
  ab_parentId : option Id
}.

(** Body of [POST /journal-entries] and [PUT /journal-entries/:id];
    [eb_lines] is [None] when [lines] is missing or not an array. *)
Record EntryBody : Type := mkEntryBody {
  eb_date : option string;
  eb_description : option string;
  eb_lines : option (list LineInput)
}.

(** Truthiness of an optional string property. *)
Definition present (s : option string) : bool :=
  match s with
  | Some x => nonEmpty x
  | None => false
  end.

(** The tolerance [0.01] of the balance check. *)
Definition tolerance : Q := 1 # 100.

Module Routes.

(** [router.post('/accounts', ...)] *)
Definition postAccounts (now : Time) (body : AccountBody) (db : Database)
  : Response Account * Database :=
  match ab_code body, ab_type body with
  | Some code, Some type =>
      if negb (nonEmpty code) || negb (present (ab_name body))
         || negb (present (ab_category body))
      then (Error 400 MissingRequiredFields, db)
      else
        match Db.getAccountByCode db code with
        | Some _ => (Error 400 AccountCodeExists, db)
        | None =>
            let '(account, db') :=
              Db.createAccount now code (ab_name body) type (ab_category body)
                            (ab_parentId body) db in
            (Data 201 account, db')
        end
  | _, _ => (Error 400 MissingRequiredFields, db)
  end.

(** [router.put('/accounts/:id', ...)]: [const { name, category } = req.body]
    and then [db.updateAccount(id, { name, category })], an object that always
    has both keys. *)
Definition putAccounts (now : Time) (id : Id) (body : AccountBody) (db : Database)
  : Response Account * Database :=
  let updates :=
    {| ua_code := None; ua_name := Some (ab_name body); ua_type := None;
       ua_category := Some (ab_category body); ua_parentId := None;
       ua_updatedAt := None |} in
  match Db.updateAccount now id updates db with
  | (None, db') => (Error 404 AccountNotFound, db')
  | (Some account, db') => (Data 200 account, db')
  end.

(** [router.delete('/accounts/:id', ...)] *)
Definition deleteAccounts (id : Id) (db : Database) : Response unit * Database :=
  match Db.deleteAccount id db with
  | (false, db') => (Error 400 CannotDeleteAccount, db')
  | (true, db') => (NoContent 204, db')
  end.

(** The loop "Check if all accounts exist": the first line whose account
    does not resolve. *)
Definition firstUnknownAccount (db : Database) (lines : list LineInput)
  : option Id :=
  li_accountId <$>
    List.find (fun line =>
                 match Db.getAccountById db (li_accountId line) with
                 | Some _ => false
                 | None => true
                 end)
              lines.

(** [lines.reduce((sum, line) => sum + (line.debitAmount || 0), 0)] *)
Definition sumDebit (lines : list LineInput) : number :=
  fold_left (fun sum line => Number.add sum (Number.orZero (li_debitAmount line)))
            lines Number.zero.

Definition sumCredit (lines : list LineInput) : number :=
  fold_left (fun sum line => Number.add sum (Number.orZero (li_creditAmount line)))
            lines Number.zero.

(** [(line.debitAmount || 0) > 0 && (line.creditAmount || 0) > 0] *)
Definition bothSides (line : LineInput) : bool :=
  Number.gt (Number.orZero (li_debitAmount line)) Number.zero
  && Number.gt (Number.orZero (li_creditAmount line)) Number.zero.

(** [router.post('/journal-entries', ...)] *)
Definition postJournalEntries (now : Time) (body : EntryBody) (db : Database)
  : Response JournalEntry * Database :=
  match eb_date body, eb_description body, eb_lines body with
  | Some date, Some description, Some lines =>
      if negb (nonEmpty date) || negb (nonEmpty description)
      then (Error 400 MissingRequiredFields, db)
      else if Nat.ltb (length lines) 2
      then (Error 400 AtLeastTwoLines, db)
      else
        match firstUnknownAccount db lines with
        | Some accountId => (Error 400 (LineAccountNotFound accountId), db)
        | None =>
            let totalDebit := sumDebit lines in
            let totalCredit := sumCredit lines in
            if Number.gt (Number.abs (Number.sub totalDebit totalCredit))
                         (Num tolerance)
            then (Error 400 DebitsCreditsMustBeEqual, db)
            else if some bothSides lines
            then (Error 400 EitherDebitOrCredit, db)
            else
              let '(entry, db') :=
                Db.createJournalEntry now date description lines db in
              (Data 201 entry, db')
        end
  | _, _, _ => (Error 400 MissingRequiredFields, db)
  end.

(** [router.put('/journal-entries/:id', ...)]: [const { date, description } =
    req.body]; the [lines] of the body are not read. *)
Definition putJournalEntries (now : Time) (id : Id) (body : EntryBody)
    (db : Database) : Response JournalEntry * Database :=
  let updates :=
    {| ue_date := Some (eb_date body);
       ue_description := Some (eb_description body);
       ue_updatedAt := None; ue_isClosed := None |} in
  match Db.updateJournalEntry now id updates db with
  | (None, db') => (Error 404 JournalEntryNotFound, db')
  | (Some entry, db') => (Data 200 entry, db')
  end.

(** [router.delete('/journal-entries/:id', ...)] *)
Definition deleteJournalEntries (id : Id) (db : Database)
  : Response unit * Database :=
  match Db.deleteJournalEntry id db with
  | (false, db') => (Error 404 JournalEntryNotFound, db')
  | (true, db') => (NoContent 204, db')
  end.

End Routes.

(** ** The [create_journal_entry] tool of the MCP server *)

(** A line of the tool's [lines] argument: accounts are addressed by code. *)
Record McpLine : Type := mkMcpLine {
  ml_accountCode : string;
  ml_debitAmount : number;
  ml_creditAmount : number
}.

Record McpParams : Type := mkMcpParams {
  p_date : option string;
  p_description : option string;
  p_lines : option (list McpLine)
}.

(** The [error] strings of the tool. *)
Inductive McpError : Type :=
| McpMissingFields             (* 'Missing required fields: date, description, lines' *)
| McpAtLeastTwoLines           (* 'Journal entry must have at least 2 lines' *)
| McpInvalidDate               (* 'Invalid date format. Use YYYY-MM-DD' *)
| McpAccountNotFound (code : string)   (* `Account not found: ${line.accountCode}` *)
| McpNotEqual (totalDebit totalCredit : number)
    (* `Debits (${totalDebit}) and credits (${totalCredit}) must be equal` *)
| McpEitherDebitOrCredit.      (* 'Each line must have either debit or credit, not both' *)

(** [{ success: true, journalEntry }] or [{ success: false, error }]. *)
Inductive ToolResult : Type :=
| Success (journalEntry : JournalEntry)
| Failure (error : McpError).

Module Mcp.

Definition isDigit (c : ascii) : bool :=
  Nat.leb 48 (nat_of_ascii c) && Nat.leb (nat_of_ascii c) 57.

Definition isHyphen (c : ascii) : bool := Nat.eqb (nat_of_ascii c) 45.

(** [/^\d{4}-\d{2}-\d{2}$/.test(date)] *)
Definition dateRegex (date : string) : bool :=
  match String.list_ascii_of_string date with
  | [y1; y2; y3; y4; h1; m1; m2; h2; d1; d2] =>
      isDigit y1 && isDigit y2 && isDigit y3 && isDigit y4 && isHyphen h1
      && isDigit m1 && isDigit m2 && isHyphen h2 && isDigit d1 && isDigit d2
  | _ => false
  end.

(** The loop "Find accounts by code": the lines with their accounts
    resolved and their amounts defaulted by [|| 0], or the first code that
    does not resolve. *)
Fixpoint resolveLines (db : Database) (lines : list McpLine)
  : string + list LineInput :=
  match lines with
  | [] => inr []
  | line :: rest =>
      match Db.getAccountByCode db (ml_accountCode line) with
      | None => inl (ml_accountCode line)
      | Some account =>
          match resolveLines db rest with
          | inl code => inl code
          | inr entryLines =>
              inr ({| li_accountId := a_id account;
                      li_debitAmount := Number.orZero (ml_debitAmount line);
                      li_creditAmount := Number.orZero (ml_creditAmount line) |}
                   :: entryLines)
          end
      end
  end.

(** [entryLines.reduce((sum, line) => sum + line.debitAmount, 0)] *)
Definition sumDebit (entryLines : list LineInput) : number :=
  fold_left (fun sum line => Number.add sum (li_debitAmount line))
            entryLines Number.zero.

Definition sumCredit (entryLines : list LineInput) : number :=
  fold_left (fun sum line => Number.add sum (li_creditAmount line))
            entryLines Number.zero.

(** [line.debitAmount > 0 && line.creditAmount > 0] *)
Definition bothSides (line : LineInput) : bool :=
  Number.gt (li_debitAmount line) Number.zero
  && Number.gt (li_creditAmount line) Number.zero.

(** [function createJournalEntry(params)].  On success the tool returns a
    projection of the stored entry; the model returns the entry. *)
Definition createJournalEntry (now : Time) (params : McpParams) (db : Database)
  : ToolResult * Database :=
  match p_date params, p_description params, p_lines params with
  | Some date, Some description, Some lines =>
      if negb (nonEmpty date) || negb (nonEmpty description)
      then (Failure McpMissingFields, db)
      else if Nat.ltb (length lines) 2
      then (Failure McpAtLeastTwoLines, db)
      else if negb (dateRegex date)
      then (Failure McpInvalidDate, db)
      else
        match resolveLines db lines with
        | inl code => (Failure (McpAccountNotFound code), db)
        | inr entryLines =>
            let totalDebit := sumDebit entryLines in
            let totalCredit := sumCredit entryLines in
            if Number.gt (Number.abs (Number.sub totalDebit totalCredit))
                         (Num tolerance)
            then (Failure (McpNotEqual totalDebit totalCredit), db)
            else if some bothSides entryLines
            then (Failure McpEitherDebitOrCredit, db)
            else
              let '(entry, db') :=
                Db.createJournalEntry now date description entryLines db in
              (Success entry, db')
        end
  | _, _, _ => (Failure McpMissingFields, db)
  end.

End Mcp.

(** ** The server as a whole: requests that change the store *)

Inductive Request : Type :=
| PostAccounts (body : AccountBody)
| PutAccounts (id : Id) (body : AccountBody)
| DeleteAccounts (id : Id)
| PostJournalEntries (body : EntryBody)
| PutJournalEntries (id : Id) (body : EntryBody)
| DeleteJournalEntries (id : Id)
| TestReset
| CreateJournalEntryTool (params : McpParams).

(** The store after one request served at time [now]. *)
Definition handle (db : Database) (r : Time * Request) : Database :=
  let '(now, req) := r in
  match req with
  | PostAccounts body => snd (Routes.postAccounts now body db)
  | PutAccounts id body => snd (Routes.putAccounts now id body db)
  | DeleteAccounts id => snd (Routes.deleteAccounts id db)
  | PostJournalEntries body => snd (Routes.postJournalEntries now body db)
  | PutJournalEntries id body => snd (Routes.putJournalEntries now id body db)
  | DeleteJournalEntries id => snd (Routes.deleteJournalEntries id db)
  | TestReset => resetDatabase now db
  | CreateJournalEntryTool params => snd (Mcp.createJournalEntry now params db)
  end.

(** The store after a sequence of requests, served one at a time. *)
Definition run (db : Database) (reqs : list (Time * Request)) : Database :=
  fold_left handle reqs db.

(** A journal-entry create request, through either adapter. *)
Inductive CreateRequest : Type :=
| ViaRest (body : EntryBody)
| ViaTool (params : McpParams).

(** The error kinds of a rejected create request, common to both adapters. *)
Inductive Rejection : Type :=
| MissingField          (* ValidationError: a required field is missing *)
| TooFewLines           (* ValidationError: at least two lines *)
| InvalidDateFormat     (* ValidationError: the date is not YYYY-MM-DD *)
| UnknownAccount        (* AccountNotFound *)
| UnbalancedEntry       (* UnbalancedEntry *)
| AmbiguousLine         (* ValidationError: a line has both debit and credit *)
| OtherRejection.

Definition restOutcome (r : Response JournalEntry) : Rejection + JournalEntry :=
  match r with
  | Data _ entry => inr entry
  | Error _ MissingRequiredFields => inl MissingField
  | Error _ AtLeastTwoLines => inl TooFewLines
  | Error _ (LineAccountNotFound _) => inl UnknownAccount
  | Error _ DebitsCreditsMustBeEqual => inl UnbalancedEntry
  | Error _ EitherDebitOrCredit => inl AmbiguousLine
  | _ => inl OtherRejection
  end.

Definition toolOutcome (r : ToolResult) : Rejection + JournalEntry :=
  match r with
  | Success entry => inr entry
  | Failure McpMissingFields => inl MissingField
  | Failure McpAtLeastTwoLines => inl TooFewLines
  | Failure McpInvalidDate => inl InvalidDateFormat
  | Failure (McpAccountNotFound _) => inl UnknownAccount
  | Failure (McpNotEqual _ _) => inl UnbalancedEntry
  | Failure McpEitherDebitOrCredit => inl AmbiguousLine
  end.

(** The outcome of a create request (the created entry, or why it was
    rejected) and the store after the request. *)
Definition submit (now : Time) (req : CreateRequest) (db : Database)
  : (Rejection + JournalEntry) * Database :=
  match req with
  | ViaRest body =>
      let '(r, db') := Routes.postJournalEntries now body db in
      (restOutcome r, db')
  | ViaTool params =>
      let '(r, db') := Mcp.createJournalEntry now params db in
      (toolOutcome r, db')
  end.

Definition rejected (o : Rejection + JournalEntry) : Prop :=
  match o with
  | inl _ => True
  | inr _ => False
  end.

(** ** Vocabulary of the specification *)

(** Sum of a list of rationals. *)
Definition Qsum (l : list Q) : Q := fold_right Qplus 0%Q l.

(** The amounts of a submitted line as the validation reads them: a missing
    amount counts for [0]. *)
Definition debitOf (line : LineInput) : Q :=
  Number.val (Number.orZero (li_debitAmount line)).

Definition creditOf (line : LineInput) : Q :=
  Number.val (Number.orZero (li_creditAmount line)).

(** A submitted line with debit and credit simultaneously positive. *)
Definition bothPositive (line : LineInput) : Prop :=
  (0 < debitOf line)%Q /\ (0 < creditOf line)%Q.

(** Debit and credit sums differ by more than the tolerance. *)
Definition unbalanced (lines : list LineInput) : Prop :=
  (tolerance < Qabs (Qsum (map debitOf lines) - Qsum (map creditOf lines)))%Q.

(** The lines of a tool call, read as submitted lines on the account a code
    resolves to (no line for a code that does not resolve). *)
Definition toolLine (db : Database) (line : McpLine) : option LineInput :=
  match Db.getAccountByCode db (ml_accountCode line) with
  | Some account =>
      Some {| li_accountId := a_id account;
              li_debitAmount := ml_debitAmount line;
              li_creditAmount := ml_creditAmount line |}
  | None => None
  end.

(** A submitted line with its amounts defaulted by [|| 0], as the tool hands
    it to the database. *)
Definition defaulted (line : LineInput) : LineInput :=
  {| li_accountId := li_accountId line;
     li_debitAmount := Number.orZero (li_debitAmount line);
     li_creditAmount := Number.orZero (li_creditAmount line) |}.


(** A create request that passes the structural and referential checks
    (fields present, a well-formed date for the tool, at least two lines,
    every account resolving), with the lines it submits. *)
Inductive WellFormed (db : Database) : CreateRequest -> list LineInput -> Prop :=
| wf_rest body date description lines :
    eb_date body = Some date -> nonEmpty date = true ->
    eb_description body = Some description -> nonEmpty description = true ->
    eb_lines body = Some lines -> 2 <= length lines ->
    (forall line, In line lines ->
                  Db.getAccountById db (li_accountId line) <> None) ->
    WellFormed db (ViaRest body) lines
| wf_tool params date description lines :
    p_date params = Some date -> nonEmpty date = true ->
    p_description params = Some description -> nonEmpty description = true ->
    Mcp.dateRegex date = true ->
    p_lines params = Some lines -> 2 <= length lines ->
    Forall (fun line => is_Some (toolLine db line)) lines ->
    WellFormed db (ViaTool params) (omap (toolLine db) lines).

(** At least one journal line of a stored entry references the account. *)
Definition referenced (db : Database) (id : Id) : Prop :=
  exists entry line,
    In entry (journalEntries db) /\ In line (e_lines entry) /\ l_accountId line = id.

(** ** The account balance, as the specification words it *)







(** ** Balanced entries and well-formed stores *)

Definition lineDebit (line : JournalLine) : Q := Number.val (debitAmount line).
Definition lineCredit (line : JournalLine) : Q := Number.val (creditAmount line).

(** Debit sum and credit sum of a stored entry. *)
Definition entryDebit (entry : JournalEntry) : Q :=
  Qsum (map lineDebit (e_lines entry)).

Definition entryCredit (entry : JournalEntry) : Q :=
  Qsum (map lineCredit (e_lines entry)).

(** The balanced-entry law, exactly and within the tolerance. *)
Definition exactlyBalanced (entry : JournalEntry) : Prop :=
  (entryDebit entry == entryCredit entry)%Q.

Definition withinTolerance (entry : JournalEntry) : Prop :=
  (Qabs (entryDebit entry - entryCredit entry) <= tolerance)%Q.

(** Both amounts of a line are numbers. *)
Definition numericLine (line : JournalLine) : Prop :=
  Number.isNum (debitAmount line) /\ Number.isNum (creditAmount line).



(** The stored line references a live account and carries numbers. *)
Definition goodLine (db : Database) (line : JournalLine) : Prop :=
  In (l_accountId line) (map a_id (accounts db)) /\ numericLine line.

Definition goodEntry (db : Database) (entry : JournalEntry) : Prop :=
  Forall (goodLine db) (e_lines entry) /\ withinTolerance entry.

(** Invariant of the store: account identifiers are pairwise distinct and
    were all drawn from the supply, and every stored entry is made of lines
    on live accounts, with numeric amounts, balanced within the tolerance. *)
Record Consistent (db : Database) : Prop := mkConsistent {
  ids_distinct : NoDup (map a_id (accounts db));
  ids_drawn : Forall (fun id => id < nextUuid db) (map a_id (accounts db));
  seed_drawn : 19 <= nextUuid db;
  entries_good : Forall (goodEntry db) (journalEntries db)
}.

(** ** The tallies of the reports, one map at a time *)


(** What the closing loop over the accounts adds up from a map. *)
Definition mapTotal (ids : list Id) (m : gmap Id number) : Q :=
  Qsum (map (fun id => Number.val (getOrZero m id)) ids).

(** ** The balances behind the balance sheet *)

(** The map [balances] of [getBalanceSheet] after its second loop. *)
Definition balancesOf (db : Database) (asOfDate : option string) : gmap Id number :=
  fold_left (fun balances entry => fold_left Db.balanceLine (e_lines entry) balances)
            (upTo asOfDate (journalEntries db)) (Db.initMap (accounts db)).

(** The raw (debit minus credit) balance the closing loop reads for an
    account. *)
Definition rawBalance (balances : gmap Id number) (account : Account) : Q :=
  Number.val (getOrZero balances (a_id account)).

Definition isExpense (account : Account) : bool :=
  match a_type account with
  | expense => true
  | _ => false
  end.

(** Sum of the raw balances of the expense accounts. *)
Definition expenseTotal (db : Database) (asOfDate : option string) : Q :=
  Qsum (map (rawBalance (balancesOf db asOfDate))
            (List.filter isExpense (accounts db))).

(** [acc.id === id], the test of the lookups by identifier. *)
Definition hasId (id : Id) (acc : Account) : bool := Nat.eqb (a_id acc) id.

(** ** Concrete stores and requests used as test inputs *)

Module Sample.

(** The seeded store; account [100] (cash) has identifier [0], account
    [400] (sales) has identifier [11], account [500] (purchases) has
    identifier [13]. *)
Definition db0 : Database := newDatabase 0.

Definition debit (accountId : Id) (amount : Q) : LineInput :=
  {| li_accountId := accountId; li_debitAmount := Num amount;
     li_creditAmount := Num 0 |}.

Definition credit (accountId : Id) (amount : Q) : LineInput :=
  {| li_accountId := accountId; li_debitAmount := Num 0;
     li_creditAmount := Num amount |}.

Definition entryBody (lines : list LineInput) : EntryBody :=
  {| eb_date := Some "2024-01-15"; eb_description := Some "sample";
     eb_lines := Some lines |}.

(** Debit 10000 to cash, credit 9000 to sales. *)
Definition unbalancedBody : EntryBody :=
  entryBody [debit 0 10000; credit 11 9000].


(** Debit 10000 to cash, credit 10000 to sales. *)
Definition saleBody : EntryBody :=
  entryBody [debit 0 10000; credit 11 10000].

(** Two lines that post nothing: neither a debit nor a credit, on cash and
    on sales. *)
Definition emptyLinesBody : EntryBody :=
  entryBody [debit 0 0; credit 11 0].

Definition emptyLinesParams : McpParams :=
  {| p_date := Some "2024-01-15"; p_description := Some "sample";
     p_lines := Some [ {| ml_accountCode := "100"; ml_debitAmount := Num 0;
                          ml_creditAmount := Num 0 |};
                       {| ml_accountCode := "400"; ml_debitAmount := Num 0;
                          ml_creditAmount := Num 0 |} ] |}.

(** The store after the sale of [saleBody] was recorded: one entry,
    with identifier [19]. *)
Definition db1 : Database :=
  snd (Routes.postJournalEntries 1 saleBody db0).



(** A patch that supplies every field an account body can carry, [name]
    excepted. *)
Definition patchWithoutName : AccountBody :=
  {| ab_code := Some "999"; ab_name := None; ab_type := Some liability;
     ab_category := Some "流動資産"; ab_parentId := Some 3 |}.


(** Debit 100 to purchases (an expense account), credit 100 to cash. *)
Definition purchaseBody : EntryBody :=
  entryBody [debit 13 100; credit 0 100].

(** A sale is recorded, an unbalanced request is rejected, an account is
    renamed. *)
Definition requests : list (Time * Request) :=
  [ (1, PostJournalEntries saleBody);
    (2, PostJournalEntries unbalancedBody);
    (3, PutAccounts 0 patchWithoutName) ].

Definition afterRequests : Database := run (newDatabase 0) requests.


Definition afterPurchase : Database :=
  run (newDatabase 0) [(1, PostJournalEntries purchaseBody)].

End Sample.

(** * The rest of the database, of the REST handlers and of the tool server *)

From Stdlib Require Import Sorted.

(** ** Further methods of [class Database] *)

(** The string of an account type. *)
Definition typeName (t : AccountType) : string :=
  match t with
  | asset => "asset"
  | liability => "liability"
  | equity => "equity"
  | revenue => "revenue"
  | expense => "expense"
  end.

Record IncomeStatement : Type := mkIncomeStatement {
  is_revenue : number;
  is_expenses : number;
  netIncome : number
}.



Module Queries.

(** [-x] *)
Definition neg (x : number) : number :=
  match x with
  | Num a => Num (- a)
  | NaN => NaN
  end.

Definition getAccounts (db : Database) (type : option string) : list Account :=
  match type with
  | Some t =>
      if nonEmpty t
      then List.filter (fun acc => String.eqb (typeName (a_type acc)) t) (accounts db)
      else accounts db
  | None => accounts db
  end.

(** [entry.date >= startDate] on a stored entry. *)
Definition dateFrom (startDate : string) (entry : JournalEntry) : bool :=
  match e_date entry with
  | Some x => date_le startDate x
  | None => false
  end.

Definition getJournalEntries (db : Database) (startDate endDate : option string)
  : list JournalEntry :=
  let entries := journalEntries db in
  let entries :=
    match startDate with
    | Some s => if nonEmpty s then List.filter (dateFrom s) entries else entries
    | None => entries
    end in
  match endDate with
  | Some e => if nonEmpty e then List.filter (dateUpTo e) entries else entries
  | None => entries
  end.

(** One line of the loop of [getIncomeStatement]. *)
Definition incomeLine (db : Database) (totals : number * number) (line : JournalLine)
  : number * number :=
  let '(revenue', expenses) := totals in
  match Db.getAccountById db (l_accountId line) with
  | None => (revenue', expenses)
  | Some account =>
      let amount := Number.sub (debitAmount line) (creditAmount line) in
      match a_type account with
      | revenue => (Number.add revenue' (neg amount), expenses)
      | expense => (revenue', Number.add expenses amount)
      | _ => (revenue', expenses)
      end
  end.

Definition getIncomeStatement (db : Database) (startDate endDate : string)
  : IncomeStatement :=
  let entries :=
    List.filter (fun entry => dateFrom startDate entry && dateUpTo endDate entry)
                (journalEntries db) in
  let '(revenue', expenses) :=
    fold_left (fun totals entry => fold_left (incomeLine db) (e_lines entry) totals)
              entries (Number.zero, Number.zero) in
  {| is_revenue := revenue'; is_expenses := expenses;
     netIncome := Number.sub revenue' expenses |}.


End Queries.

(** ** Sorting the rows of a T-account *)

Section Sort.

(** [a.localeCompare(b) <= 0] on two strings, which depends on the collation
    of the host. *)
Variable localeLe : string -> string -> bool.





End Sort.

(** ** The reading REST handlers *)

Inductive QueryError : Type :=
| QAccountNotFound            (* 'Account not found' *)
| QJournalEntryNotFound       (* 'Journal entry not found' *)
| QDatesRequired.             (* 'startDate and endDate are required' *)

(** [res.json({ data })] (status 200) and [res.status(s).json({ error })]. *)
Inductive Answer (A : Type) : Type :=
| Ok (data : A)
| Ko (status : nat) (error : QueryError).

Arguments Ok {A} data.
Arguments Ko {A} status error.

(** Body of the answer of [GET /balances/:accountId]. *)
Record AccountBalance : Type := mkAccountBalance {
  b_accountId : Id;
  b_accountCode : string;
  b_accountName : option string;
  b_accountType : AccountType;
  b_balance : number;
  b_asOfDate : string
}.


(** [asOfDate || new Date().toISOString().split('T')[0]] *)
Definition orToday (asOfDate : option string) (today : string) : string :=
  match asOfDate with
  | Some d => if nonEmpty d then d else today
  | None => today
  end.

Module Reads.

(** [router.get('/accounts', ...)] *)
Definition getAccounts (type : option string) (db : Database) : Answer (list Account) :=
  Ok (Queries.getAccounts db type).

(** [router.get('/accounts/:id', ...)] *)
Definition getAccount (id : Id) (db : Database) : Answer Account :=
  match Db.getAccountById db id with
  | None => Ko 404 QAccountNotFound
  | Some account => Ok account
  end.

(** [router.get('/journal-entries', ...)] *)
Definition getJournalEntries (startDate endDate : option string) (db : Database)
  : Answer (list JournalEntry) :=
  Ok (Queries.getJournalEntries db startDate endDate).

(** [router.get('/journal-entries/:id', ...)] *)
Definition getJournalEntry (id : Id) (db : Database) : Answer JournalEntry :=
  match Db.getJournalEntryById db id with
  | None => Ko 404 QJournalEntryNotFound
  | Some entry => Ok entry
  end.

(** [router.get('/reports/trial-balance', ...)] *)
Definition getTrialBalance (asOfDate : option string) (db : Database)
  : Answer TrialBalance :=
  Ok (Db.getTrialBalance db asOfDate).

(** [router.get('/reports/balance-sheet', ...)] *)
Definition getBalanceSheet (asOfDate : option string) (db : Database)
  : Answer BalanceSheet :=
  Ok (Db.getBalanceSheet db asOfDate).

(** [router.get('/reports/income-statement', ...)] *)
Definition getIncomeStatement (startDate endDate : option string) (db : Database)
  : Answer IncomeStatement :=
  match startDate, endDate with
  | Some s, Some e =>
      if negb (nonEmpty s) || negb (nonEmpty e) then Ko 400 QDatesRequired
      else Ok (Queries.getIncomeStatement db s e)
  | _, _ => Ko 400 QDatesRequired
  end.

(** [router.get('/balances/:accountId', ...)] *)
Definition getBalance (today : string) (accountId : Id) (asOfDate : option string)
    (db : Database) : Answer AccountBalance :=
  match Db.getAccountById db accountId with
  | None => Ko 404 QAccountNotFound
  | Some account =>
      Ok {| b_accountId := a_id account; b_accountCode := a_code account;
            b_accountName := a_name account; b_accountType := a_type account;
            b_balance := Db.getAccountBalance db accountId asOfDate;
            b_asOfDate := orToday asOfDate today |}
  end.




End Reads.

(** ** The other tools and the dispatcher of the MCP server *)

(** The [arguments] object of a [tools/call]: the properties the five tools
    read from it. *)
Record ToolArgs : Type := mkToolArgs {
  ta_date : option string;
  ta_description : option string;
  ta_lines : option (list McpLine);
  ta_accountCode : option string;
  ta_asOfDate : option string;
  ta_type : option string;
  ta_startDate : option string;
  ta_endDate : option string
}.

Inductive ToolError : Type :=
| AccountCodeRequired                  (* 'accountCode is required' *)
| ToolAccountNotFound (code : string)  (* `Account not found: ${accountCode}` *)
| ToolInvalidDate                      (* 'Invalid date format. Use YYYY-MM-DD' *)
| ToolDatesRequired.                   (* 'startDate and endDate are required' *)

(** What a tool returns: the [success: true] objects of the five tools, and
    [{ success: false, error }]. *)
Inductive ToolOutput : Type :=
| CreateOut (result : ToolResult)
| BalanceOut (accountCode : string) (accountName : option string)
             (accountType : AccountType) (balance : number) (asOfDate : string)
| AccountsOut (accounts : list (string * option string * AccountType * option string))
| BalanceSheetOut (asOfDate : string) (balanceSheet : BalanceSheet)
| IncomeStatementOut (startDate endDate : string) (incomeStatement : IncomeStatement)
| ToolFailed (error : ToolError).

(** [id: number | string] *)
Inductive RpcId : Type :=
| IdNumber (n : Z)
| IdString (s : string).

(** [params] of a [tools/call]: [{ name, arguments }]. *)
Record CallParams : Type := mkCallParams {
  cp_name : option string;
  cp_arguments : option ToolArgs
}.

(** A parsed request; a property that the JSON value does not have is
    [None]. *)
Record JSONRPCRequest : Type := mkJSONRPCRequest {
  rq_id : option RpcId;
  rq_method : option string;
  rq_params : option CallParams
}.

Inductive RpcResult : Type :=
| Initialized          (* protocolVersion, capabilities, serverInfo *)
| ToolsListed (tools : list (string * list string))
| ToolCalled (output : ToolOutput)
| DatabaseReset.       (* { message: 'Database reset' } *)

Inductive RpcError : Type :=
| MethodNotFound (name : option string)  (* code -32601 *)
| InternalError.                         (* code -32603 *)


Record JSONRPCResponse : Type := mkJSONRPCResponse {
  rs_id : option RpcId;
  rs_result : option RpcResult;
  rs_error : option RpcError
}.

(** The names of [TOOLS], each with the [required] list of its schema. *)
Definition TOOLS : list (string * list string) :=
  [ ("create_journal_entry", ["date"; "description"; "lines"]);
    ("get_account_balance", ["accountCode"]);
    ("list_accounts", []);
    ("generate_balance_sheet", []);
    ("generate_income_statement", ["startDate"; "endDate"]) ].

Module Tools.

(** [function getAccountBalance(params)] *)
Definition getAccountBalance (today : string) (params : ToolArgs) (db : Database)
  : ToolOutput :=
  match ta_accountCode params with
  | None => ToolFailed AccountCodeRequired
  | Some accountCode =>
      if negb (nonEmpty accountCode) then ToolFailed AccountCodeRequired
      else
        match Db.getAccountByCode db accountCode with
        | None => ToolFailed (ToolAccountNotFound accountCode)
        | Some account =>
            BalanceOut (a_code account) (a_name account) (a_type account)
                       (Db.getAccountBalance db (a_id account) (ta_asOfDate params))
                       (orToday (ta_asOfDate params) today)
        end
  end.

(** [function listAccounts(params)] *)
Definition listAccounts (params : ToolArgs) (db : Database) : ToolOutput :=
  AccountsOut
    (map (fun acc => (a_code acc, a_name acc, a_type acc, a_category acc))
         (Queries.getAccounts db (ta_type params))).

(** [function generateBalanceSheet(params)] *)
Definition generateBalanceSheet (today : string) (params : ToolArgs) (db : Database)
  : ToolOutput :=
  if match ta_asOfDate params with
     | Some asOfDate => nonEmpty asOfDate && negb (Mcp.dateRegex asOfDate)
     | None => false
     end
  then ToolFailed ToolInvalidDate
  else BalanceSheetOut (orToday (ta_asOfDate params) today)
                       (Db.getBalanceSheet db (ta_asOfDate params)).

(** [function generateIncomeStatement(params)] *)
Definition generateIncomeStatement (params : ToolArgs) (db : Database) : ToolOutput :=
  match ta_startDate params, ta_endDate params with
  | Some startDate, Some endDate =>
      if negb (nonEmpty startDate) || negb (nonEmpty endDate)
      then ToolFailed ToolDatesRequired
      else if negb (Mcp.dateRegex startDate) || negb (Mcp.dateRegex endDate)
      then ToolFailed ToolInvalidDate
      else IncomeStatementOut startDate endDate
                              (Queries.getIncomeStatement db startDate endDate)
  | _, _ => ToolFailed ToolDatesRequired
  end.

Definition createParams (args : ToolArgs) : McpParams :=
  {| p_date := ta_date args; p_description := ta_description args;
     p_lines := ta_lines args |}.

(** What a call of a tool function does: it returns, or it throws, or no
    tool has that name. *)
Inductive CallOutcome : Type :=
| Returned (output : ToolOutput) (db : Database)
| Threw
| NoSuchTool.

(** [const { ... } = params] at the head of every tool function throws a
    [TypeError] when the [arguments] are [undefined]. *)
Definition withArgs (args : option ToolArgs) (tool : ToolArgs -> CallOutcome)
  : CallOutcome :=
  match args with
  | Some params => tool params
  | None => Threw
  end.

(** [value === 'literal'] on a property that may be [undefined]. *)
Definition equals (value : option string) (literal : string) : bool :=
  match value with
  | Some s => String.eqb s literal
  | None => false
  end.

(** The inner [switch (name)] of [tools/call]. *)
Definition callTool (now : Time) (today : string) (name : option string)
    (args : option ToolArgs) (db : Database) : CallOutcome :=
  if equals name "create_journal_entry" then
    withArgs args (fun params =>
      let '(result, db') := Mcp.createJournalEntry now (createParams params) db in
      Returned (CreateOut result) db')
  else if equals name "get_account_balance" then
    withArgs args (fun params => Returned (getAccountBalance today params db) db)
  else if equals name "list_accounts" then
    withArgs args (fun params => Returned (listAccounts params db) db)
  else if equals name "generate_balance_sheet" then
    withArgs args (fun params => Returned (generateBalanceSheet today params db) db)
  else if equals name "generate_income_statement" then
    withArgs args (fun params => Returned (generateIncomeStatement params db) db)
  else NoSuchTool.

(** [function handleRequest(request)].  Destructuring [request.params] when
    it is [undefined] throws as well; the [catch] turns every [TypeError]
    into the internal error. *)
Definition handleRequest (now : Time) (today : string) (request : JSONRPCRequest)
    (db : Database) : JSONRPCResponse * Database :=
  let result (r : RpcResult) :=
    {| rs_id := rq_id request; rs_result := Some r; rs_error := None |} in
  let error (e : RpcError) :=
    {| rs_id := rq_id request; rs_result := None; rs_error := Some e |} in
  if equals (rq_method request) "initialize" then (result Initialized, db)
  else if equals (rq_method request) "tools/list" then (result (ToolsListed TOOLS), db)
  else if equals (rq_method request) "tools/call" then
    match rq_params request with
    | None => (error InternalError, db)
    | Some params =>
        match callTool now today (cp_name params) (cp_arguments params) db with
        | Returned output db' => (result (ToolCalled output), db')
        | Threw => (error InternalError, db)
        | NoSuchTool => (error (MethodNotFound (cp_name params)), db)
        end
    end
  else if equals (rq_method request) "test/reset"
  then (result DatabaseReset, resetDatabase now db)
  else (error (MethodNotFound (rq_method request)), db).

End Tools.

(** ** The main loop of the MCP server *)

(** [s.split('\n')] *)
Fixpoint splitNewline (s : string) : list string :=
  match s with
  | EmptyString => [EmptyString]
  | String c rest =>
      if Ascii.eqb c "010"%char then EmptyString :: splitNewline rest
      else
        match splitNewline rest with
        | piece :: pieces => String c piece :: pieces
        | [] => [String c EmptyString]
        end
  end.

(** What the server writes for a line. *)
Inductive Output : Type :=
| Responded (response : JSONRPCResponse)
| ParseError.           (* id null, code -32700, 'Parse error' *)

Section Main.

(** [line.trim() === ''] *)
Variable isBlank : string -> bool.

(** [JSON.parse(line)], read as a request; [None] when it throws (or yields
    [null], on which [handleRequest] throws before its own [try]). *)
Variable parse : string -> option JSONRPCRequest.

(** The body of the loop [for (const line of lines)]. *)
Definition serveLine (now : Time) (today : string)
    (state : list Output * Database) (line : string) : list Output * Database :=
  let '(written, db) := state in
  if isBlank line then (written, db)
  else
    match parse line with
    | Some request =>
        let '(response, db') := Tools.handleRequest now today request db in
        (written ++ [Responded response], db')
    | None => (written ++ [ParseError], db)
    end.

(** The handler of ['data']: the new buffer, what was written, and the
    store. *)
Definition onData (now : Time) (today : string) (buffer : string) (db : Database)
    (chunk : string) : string * (list Output * Database) :=
  let lines := splitNewline (buffer +:+ chunk) in
  (List.last lines EmptyString,
   fold_left (serveLine now today) (removelast lines) ([], db)).

End Main.

(** ** Integrity of the store *)

(** Neither amount of a stored line is positive while the other is. *)
Definition oneSided (line : JournalLine) : Prop :=
  ~ ((0 < lineDebit line)%Q /\ (0 < lineCredit line)%Q).

(** What the handlers keep true of the store: identifiers and account codes
    are pairwise distinct and drawn from the supply; every entry has at least
    two lines, and each of them references a live account and has at most one
    positive side. *)
Record Integrity (db : Database) : Prop := mkIntegrity {
  account_ids_distinct : NoDup (map a_id (accounts db));
  account_codes_distinct : NoDup (map a_code (accounts db));
  entry_ids_distinct : NoDup (map e_id (journalEntries db));
  account_ids_drawn : Forall (fun id => id < nextUuid db) (map a_id (accounts db));
  entry_ids_drawn : Forall (fun id => id < nextUuid db) (map e_id (journalEntries db));
  supply_past_seed : 19 <= nextUuid db;
  entries_have_two_lines :
    Forall (fun entry => 2 <= length (e_lines entry)) (journalEntries db);
  lines_reference_accounts :
    Forall (fun entry =>
              Forall (fun line => In (l_accountId line) (map a_id (accounts db)))
                     (e_lines entry))
           (journalEntries db);
  lines_one_sided :
    Forall (fun entry => Forall oneSided (e_lines entry)) (journalEntries db)
}.

(** ** More concrete requests *)

Module Scenario.

(** A new account, "Petty cash", with code 105. *)
Definition pettyCash : AccountBody :=
  {| ab_code := Some "105"; ab_name := Some "Petty cash"; ab_type := Some asset;
     ab_category := Some "current"; ab_parentId := None |}.

(** The store after the sale of [Sample.saleBody]. *)
Definition afterSale : Database := Sample.db1.

(** A body that changes the description and omits the date. *)
Definition undatedBody : EntryBody :=
  {| eb_date := None; eb_description := Some "changed"; eb_lines := None |}.

End Scenario.

(** The REST body that submits what a tool call submits: the same date and
    description, and the lines of the call on the accounts their codes
    resolve to, with missing amounts defaulted to 0. *)
Definition restBodyOf (db : Database) (params : McpParams) : EntryBody :=
  {| eb_date := p_date params;
     eb_description := p_description params;
     eb_lines := (fun lines => map defaulted (omap (toolLine db) lines))
                   <$> p_lines params |}.


(** Serving two chunks one after the other, from a buffer and a store. *)
Definition onDataTwice (isBlank : string -> bool)
    (parse : string -> option JSONRPCRequest) (now : Time) (today : string)
    (buffer : string) (db : Database) (chunk1 chunk2 : string)
  : string * (list Output * Database) :=
  let '(buffer1, (written1, db1)) := onData isBlank parse now today buffer db chunk1 in
  let '(buffer2, (written2, db2)) := onData isBlank parse now today buffer1 db1 chunk2 in
  (buffer2, (written1 ++ written2, db2)).

Module Wire.

(** [tools/call] of [create_journal_entry] for the sale of [Sample.saleBody],
    by account code. *)
Definition saleCall : JSONRPCRequest :=
  {| rq_id := Some (IdNumber 1);
     rq_method := Some "tools/call";
     rq_params :=
       Some {| cp_name := Some "create_journal_entry";
               cp_arguments :=
                 Some {| ta_date := Some "2024-01-15";
                         ta_description := Some "sample";
                         ta_lines :=
                           Some [ mkMcpLine "100" (Num 10000) (Num 0);
                                  mkMcpLine "400" (Num 0) (Num 10000) ];
                         ta_accountCode := None; ta_asOfDate := None;
                         ta_type := None; ta_startDate := None;
                         ta_endDate := None |} |} |}.

Definition resetCall : JSONRPCRequest :=
  {| rq_id := Some (IdString "r"); rq_method := Some "test/reset"; rq_params := None |}.

(** A parser that knows two lines. *)
Definition parse (line : string) : option JSONRPCRequest :=
  if String.eqb line "sale" then Some saleCall
  else if String.eqb line "reset" then Some resetCall
  else None.

Definition isBlank (line : string) : bool := String.eqb line "".

End Wire.

(** ** Vocabulary for the income statement *)




Module Scenario2.


End Scenario2.

(** * Properties *)

(** A decidable proposition on a concrete input, settled by evaluation. *)
Ltac decide_by_computation :=
  refine (bool_decide_unpack _ _); vm_compute; exact I.

(** ** Arithmetic on numbers *)

Section NumberFacts.

Lemma orZero_is_num (x : number) :
  Number.orZero x = Num (Number.val (Number.orZero x)).
Proof.
  destruct x as [a|]; unfold Number.orZero; simpl; [|reflexivity].
  destruct (Qeq_bool a 0); reflexivity.
Qed.

Lemma orZero_val (a : Q) : (Number.val (Number.orZero (Num a)) == a)%Q.
Proof.
  unfold Number.orZero; simpl.
  destruct (Qeq_bool a 0) eqn:E; simpl; [|reflexivity].
  apply Qeq_bool_iff in E. now rewrite E.
Qed.

Lemma gt_true_iff (a b : Q) : Number.gt (Num a) (Num b) = true <-> (b < a)%Q.
Proof.
  simpl. rewrite negb_true_iff, <- not_true_iff_false, Qle_bool_iff.
  split; [apply Qnot_le_lt | apply Qlt_not_le].
Qed.

Lemma gt_false_iff (a b : Q) : Number.gt (Num a) (Num b) = false <-> (a <= b)%Q.
Proof.
  simpl. rewrite negb_false_iff, Qle_bool_iff. reflexivity.
Qed.

(** A left fold of [Number.add] over numbers that are all rationals. *)
Lemma fold_add_num {A : Type} (f : A -> number) (g : A -> Q) (l : list A) :
  (forall x, In x l -> f x = Num (g x)) ->
  forall a : Q,
  exists q : Q,
    fold_left (fun sum x => Number.add sum (f x)) l (Num a) = Num q
    /\ (q == a + Qsum (map g l))%Q.
Proof.
  induction l as [|x l IH]; intros Hf a; simpl.
  - exists a. split; [reflexivity | lra].
  - rewrite (Hf x) by (now left). simpl.
    destruct (IH (fun y Hy => Hf y (or_intror Hy)) (a + g x)%Q) as (q & -> & Hq).
    exists q. split; [reflexivity | lra].
Qed.

End NumberFacts.

(** ** Sums of rationals *)

Section Sums.

Lemma Qsum_app (l k : list Q) : (Qsum (l ++ k) == Qsum l + Qsum k)%Q.
Proof. induction l as [|x l IH]; simpl; [lra | rewrite IH; lra]. Qed.

Lemma Qsum_pointwise {A : Type} (f g : A -> Q) (l : list A) :
  (forall x, In x l -> (f x == g x)%Q) -> (Qsum (map f l) == Qsum (map g l))%Q.
Proof.
  induction l as [|x l IH]; intros H; simpl; [reflexivity|].
  rewrite (H x (or_introl eq_refl)), IH; [reflexivity|].
  intros y Hy. apply H. now right.
Qed.

Lemma Qsum_flat_map {A B : Type} (f : B -> Q) (h : A -> list B) (l : list A) :
  (Qsum (map f (flat_map h l)) == Qsum (map (fun x => Qsum (map f (h x))) l))%Q.
Proof.
  induction l as [|x l IH]; simpl; [reflexivity|].
  rewrite map_app, Qsum_app, IH. reflexivity.
Qed.


Lemma Qsum_minus {A : Type} (f g : A -> Q) (l : list A) :
  (Qsum (map (fun x => f x - g x) l) == Qsum (map f l) - Qsum (map g l))%Q.
Proof. induction l as [|x l IH]; simpl; [lra | rewrite IH; lra]. Qed.

End Sums.

(** ** The validation of the REST handler *)

Section RestValidation.

Lemma rest_sumDebit (lines : list LineInput) :
  exists q, Routes.sumDebit lines = Num q /\ (q == Qsum (map debitOf lines))%Q.
Proof.
  destruct (fold_add_num (fun line => Number.orZero (li_debitAmount line))
              debitOf lines (fun x _ => orZero_is_num _) 0%Q) as (q & Hq & E).
  exists q. split; [exact Hq | lra].
Qed.

Lemma rest_sumCredit (lines : list LineInput) :
  exists q, Routes.sumCredit lines = Num q /\ (q == Qsum (map creditOf lines))%Q.
Proof.
  destruct (fold_add_num (fun line => Number.orZero (li_creditAmount line))
              creditOf lines (fun x _ => orZero_is_num _) 0%Q) as (q & Hq & E).
  exists q. split; [exact Hq | lra].
Qed.

Lemma rest_balance_check (lines : list LineInput) :
  Number.gt (Number.abs (Number.sub (Routes.sumDebit lines) (Routes.sumCredit lines)))
            (Num tolerance) = true
  <-> unbalanced lines.
Proof.
  destruct (rest_sumDebit lines) as (d & -> & Hd).
  destruct (rest_sumCredit lines) as (c & -> & Hc).
  unfold unbalanced. cbn [Number.abs Number.sub]. rewrite gt_true_iff.
  now rewrite Hd, Hc.
Qed.

Lemma rest_bothSides (line : LineInput) :
  Routes.bothSides line = true <-> bothPositive line.
Proof.
  unfold Routes.bothSides, bothPositive, debitOf, creditOf, Number.zero.
  rewrite andb_true_iff.
  rewrite (orZero_is_num (li_debitAmount line)), (orZero_is_num (li_creditAmount line)).
  now rewrite !gt_true_iff.
Qed.

Lemma firstUnknownAccount_None (db : Database) (lines : list LineInput) :
  Routes.firstUnknownAccount db lines = None ->
  forall line, In line lines -> Db.getAccountById db (li_accountId line) <> None.
Proof.
  unfold Routes.firstUnknownAccount. intros H line Hin Hnone.
  destruct (List.find _ lines) eqn:F; [discriminate|].
  pose proof (find_none _ _ F line Hin) as Hf. simpl in Hf.
  now rewrite Hnone in Hf.
Qed.

(** What the handler answers, case by case: a rejection is a 400 that
    leaves the store as it was; a creation is a 201 on a body that passed
    every check. *)
Lemma postJournalEntries_spec (now : Time) (body : EntryBody) (db : Database) :
  match Routes.postJournalEntries now body db with
  | (Data s entry, db') =>
      s = 201 /\
      exists date description lines,
        eb_date body = Some date /\ eb_description body = Some description /\
        eb_lines body = Some lines /\
        nonEmpty date = true /\ nonEmpty description = true /\
        2 <= length lines /\
        (forall line, In line lines ->
                      Db.getAccountById db (li_accountId line) <> None) /\
        ~ unbalanced lines /\
        (forall line, In line lines -> ~ bothPositive line) /\
        (entry, db') = Db.createJournalEntry now date description lines db
  | (Error s _, db') => s = 400 /\ db' = db
  | (NoContent _, _) => False
  end.
Proof.
  unfold Routes.postJournalEntries.
  destruct (eb_date body) as [date|]; [|now split].
  destruct (eb_description body) as [description|]; [|now split].
  destruct (eb_lines body) as [lines|]; [|now split].
  destruct (nonEmpty date) eqn:Hd; [|now split].
  destruct (nonEmpty description) eqn:Hs; [|now split].
  simpl negb. simpl orb. cbv iota.
  destruct (Nat.ltb (length lines) 2) eqn:Hlen; [now split|].
  apply Nat.ltb_ge in Hlen.
  destruct (Routes.firstUnknownAccount db lines) eqn:Hacc; [now split|].
  destruct (Number.gt _ _) eqn:Hbal; [now split|].
  destruct (some Routes.bothSides lines) eqn:Hboth; [now split|].
  destruct (Db.createJournalEntry now date description lines db) as [entry db'] eqn:Hc.
  split; [reflexivity|].
  exists date, description, lines. repeat split; try assumption.
  - now apply firstUnknownAccount_None.
  - intros Hu. apply rest_balance_check in Hu. congruence.
  - intros line Hin Hp. apply rest_bothSides in Hp.
    unfold some in Hboth.
    assert (existsb Routes.bothSides lines = true)
      by (apply existsb_exists; eauto).
    congruence.
  - now symmetry.
Qed.

End RestValidation.

(** ** The validation of the tool handler *)

Section ToolValidation.

Lemma orZero_idem (x : number) : Number.orZero (Number.orZero x) = Number.orZero x.
Proof.
  unfold Number.orZero. destruct (Number.truthy x) eqn:E.
  - now rewrite E.
  - reflexivity.
Qed.

Lemma debitOf_defaulted (line : LineInput) : debitOf (defaulted line) = debitOf line.
Proof. unfold debitOf, defaulted; simpl. now rewrite orZero_idem. Qed.

Lemma creditOf_defaulted (line : LineInput) : creditOf (defaulted line) = creditOf line.
Proof. unfold creditOf, defaulted; simpl. now rewrite orZero_idem. Qed.

Lemma resolveLines_inr (db : Database) (lines : list McpLine) entryLines :
  Mcp.resolveLines db lines = inr entryLines ->
  Forall (fun line => is_Some (toolLine db line)) lines
  /\ entryLines = map defaulted (omap (toolLine db) lines).
Proof.
  revert entryLines. induction lines as [|line rest IH]; simpl; intros entryLines H.
  - inversion H. split; [constructor | reflexivity].
  - unfold toolLine at 2.
    destruct (Db.getAccountByCode db (ml_accountCode line)) as [account|] eqn:Ha;
      [|discriminate].
    destruct (Mcp.resolveLines db rest) as [code|resolved]; [discriminate|].
    inversion H; subst. destruct (IH resolved eq_refl) as [Hall ->].
    split; [|reflexivity].
    constructor; [|exact Hall]. unfold toolLine. rewrite Ha. eauto.
Qed.

Lemma resolveLines_unknown (db : Database) (lines : list McpLine) line :
  In line lines -> Db.getAccountByCode db (ml_accountCode line) = None ->
  exists code, Mcp.resolveLines db lines = inl code.
Proof.
  induction lines as [|x rest IH]; simpl; [tauto|].
  intros [->|Hin] Hnone.
  - rewrite Hnone. eauto.
  - destruct (Db.getAccountByCode db (ml_accountCode x)); [|eauto].
    destruct (IH Hin Hnone) as [code ->]. eauto.
Qed.

Lemma tool_sumDebit (lines : list LineInput) :
  exists q, Mcp.sumDebit (map defaulted lines) = Num q
            /\ (q == Qsum (map debitOf lines))%Q.
Proof.
  destruct (fold_add_num li_debitAmount debitOf (map defaulted lines)) with (a := 0%Q)
    as (q & Hq & E).
  - intros x Hx. apply in_map_iff in Hx as (y & <- & _).
    rewrite debitOf_defaulted. apply orZero_is_num.
  - exists q. split; [exact Hq|].
    rewrite E, map_map, (map_ext _ debitOf) by apply debitOf_defaulted. lra.
Qed.

Lemma tool_sumCredit (lines : list LineInput) :
  exists q, Mcp.sumCredit (map defaulted lines) = Num q
            /\ (q == Qsum (map creditOf lines))%Q.
Proof.
  destruct (fold_add_num li_creditAmount creditOf (map defaulted lines)) with (a := 0%Q)
    as (q & Hq & E).
  - intros x Hx. apply in_map_iff in Hx as (y & <- & _).
    rewrite creditOf_defaulted. apply orZero_is_num.
  - exists q. split; [exact Hq|].
    rewrite E, map_map, (map_ext _ creditOf) by apply creditOf_defaulted. lra.
Qed.

Lemma tool_balance_check (lines : list LineInput) :
  Number.gt (Number.abs (Number.sub (Mcp.sumDebit (map defaulted lines))
                                    (Mcp.sumCredit (map defaulted lines))))
            (Num tolerance) = true
  <-> unbalanced lines.
Proof.
  destruct (tool_sumDebit lines) as (d & -> & Hd).
  destruct (tool_sumCredit lines) as (c & -> & Hc).
  unfold unbalanced. cbn [Number.abs Number.sub]. rewrite gt_true_iff.
  now rewrite Hd, Hc.
Qed.

Lemma tool_bothSides (line : LineInput) :
  Mcp.bothSides (defaulted line) = true <-> bothPositive line.
Proof.
  unfold Mcp.bothSides, bothPositive, debitOf, creditOf, defaulted, Number.zero.
  cbn [li_debitAmount li_creditAmount].
  rewrite andb_true_iff.
  rewrite (orZero_is_num (li_debitAmount line)), (orZero_is_num (li_creditAmount line)).
  now rewrite !gt_true_iff.
Qed.

(** What the tool answers, case by case. *)
Lemma createJournalEntry_spec (now : Time) (params : McpParams) (db : Database) :
  match Mcp.createJournalEntry now params db with
  | (Success entry, db') =>
      exists date description lines,
        p_date params = Some date /\ p_description params = Some description /\
        p_lines params = Some lines /\
        nonEmpty date = true /\ nonEmpty description = true /\
        2 <= length lines /\
        Forall (fun line => is_Some (toolLine db line)) lines /\
        ~ unbalanced (omap (toolLine db) lines) /\
        (forall line, In line (omap (toolLine db) lines) -> ~ bothPositive line) /\
        (entry, db') =
          Db.createJournalEntry now date description
            (map defaulted (omap (toolLine db) lines)) db
  | (Failure _, db') => db' = db
  end.
Proof.
  unfold Mcp.createJournalEntry.
  destruct (p_date params) as [date|]; [|reflexivity].
  destruct (p_description params) as [description|]; [|reflexivity].
  destruct (p_lines params) as [lines|]; [|reflexivity].
  destruct (nonEmpty date) eqn:Hd; [|reflexivity].
  destruct (nonEmpty description) eqn:Hs; [|reflexivity].
  simpl negb. simpl orb. cbv iota.
  destruct (Nat.ltb (length lines) 2) eqn:Hlen; [reflexivity|].
  apply Nat.ltb_ge in Hlen.
  destruct (Mcp.dateRegex date) eqn:Hre; [|reflexivity]. simpl negb. cbv iota.
  destruct (Mcp.resolveLines db lines) as [code|entryLines] eqn:Hres; [reflexivity|].
  apply resolveLines_inr in Hres as [Hall ->].
  destruct (Number.gt _ _) eqn:Hbal; [reflexivity|].
  destruct (some Mcp.bothSides _) eqn:Hboth; [reflexivity|].
  destruct (Db.createJournalEntry now date description _ db) as [entry db'] eqn:Hc.
  exists date, description, lines. repeat split; try assumption.
  - intros Hu. apply tool_balance_check in Hu. congruence.
  - intros line Hin Hp. apply tool_bothSides in Hp.
    unfold some in Hboth.
    assert (existsb Mcp.bothSides (map defaulted (omap (toolLine db) lines)) = true)
      by (apply existsb_exists; exists (defaulted line); split;
          [now apply in_map | exact Hp]).
    congruence.
  - now symmetry.
Qed.

End ToolValidation.

(** ** Rejected create requests *)




(** ** Requests that pass the structural checks *)

Section WellFormedRequests.

Lemma firstUnknownAccount_resolved (db : Database) (lines : list LineInput) :
  (forall line, In line lines -> Db.getAccountById db (li_accountId line) <> None) ->
  Routes.firstUnknownAccount db lines = None.
Proof.
  intros H. unfold Routes.firstUnknownAccount.
  destruct (List.find _ lines) as [line|] eqn:F; [|reflexivity].
  apply find_some in F as [Hin Hf].
  destruct (Db.getAccountById db (li_accountId line)) eqn:E; [discriminate|].
  exfalso. exact (H line Hin E).
Qed.

Lemma resolveLines_resolved (db : Database) (lines : list McpLine) :
  Forall (fun line => is_Some (toolLine db line)) lines ->
  Mcp.resolveLines db lines = inr (map defaulted (omap (toolLine db) lines)).
Proof.
  induction 1 as [|line rest [r Hr] _ IH]; [reflexivity|].
  simpl. rewrite IH. unfold toolLine in *.
  destruct (Db.getAccountByCode db (ml_accountCode line)); [|discriminate].
  reflexivity.
Qed.

Lemma some_false {A : Type} (p : A -> bool) (l : list A) :
  (forall x, In x l -> p x = false) -> some p l = false.
Proof.
  intros H. unfold some. destruct (existsb p l) eqn:E; [|reflexivity].
  apply existsb_exists in E as (x & Hin & Hp). rewrite (H x Hin) in Hp. discriminate.
Qed.

(** The outcome of a create request that passes the structural checks, by
    the order of the remaining two checks: the balance first, then the
    lines. *)
Lemma submit_wellFormed (now : Time) (req : CreateRequest) (db : Database)
    (lines : list LineInput) :
  WellFormed db req lines ->
  (unbalanced lines -> submit now req db = (inl UnbalancedEntry, db))
  /\ (~ unbalanced lines -> (exists line, In line lines /\ bothPositive line) ->
      submit now req db = (inl AmbiguousLine, db))
  /\ (~ unbalanced lines -> (forall line, In line lines -> ~ bothPositive line) ->
      exists date description stored,
        (req = ViaRest (mkEntryBody (Some date) (Some description) (Some lines))
         /\ stored = lines
         \/ (exists ls, req = ViaTool (mkMcpParams (Some date) (Some description) (Some ls)))
            /\ stored = map defaulted lines)
        /\ submit now req db =
             (inr (fst (Db.createJournalEntry now date description stored db)),
              snd (Db.createJournalEntry now date description stored db))).
Proof.
  intros Hwf.
  destruct Hwf as [body date description lines Hdate Hd Hdesc Hs Hlines Hlen Hacc
                  |params date description lines Hdate Hd Hdesc Hs Hre Hlines Hlen Hall].
  - unfold submit, Routes.postJournalEntries.
    rewrite Hdate, Hdesc, Hlines, Hd, Hs.
    simpl negb. simpl orb. cbv iota.
    replace (Nat.ltb (length lines) 2) with false
      by (symmetry; apply Nat.ltb_ge; exact Hlen).
    rewrite (firstUnknownAccount_resolved db lines Hacc).
    destruct (Number.gt _ _) eqn:Hbal.
    + apply rest_balance_check in Hbal.
      split; [reflexivity|]. split; intros Hn; contradiction.
    + assert (Hnot : ~ unbalanced lines)
        by (intros Hu; apply rest_balance_check in Hu; congruence).
      split; [intros Hu; contradiction|].
      split; intros _.
      * intros (line & Hin & Hp). apply rest_bothSides in Hp.
        replace (some Routes.bothSides lines) with true; [reflexivity|].
        symmetry. apply existsb_exists. eauto.
      * intros Hno. rewrite some_false.
        2:{ intros x Hx. destruct (Routes.bothSides x) eqn:E; [|reflexivity].
            apply rest_bothSides in E. exfalso. exact (Hno x Hx E). }
        exists date, description, lines. split.
        -- left. split; [|reflexivity]. destruct body; simpl in *. congruence.
        -- destruct (Db.createJournalEntry now date description lines db).
           reflexivity.
  - unfold submit, Mcp.createJournalEntry.
    rewrite Hdate, Hdesc, Hlines, Hd, Hs, Hre.
    simpl negb. simpl orb. cbv iota.
    replace (Nat.ltb (length lines) 2) with false
      by (symmetry; apply Nat.ltb_ge; exact Hlen).
    rewrite (resolveLines_resolved db lines Hall).
    destruct (Number.gt _ _) eqn:Hbal.
    + apply tool_balance_check in Hbal.
      split; [reflexivity|]. split; intros Hn; contradiction.
    + assert (Hnot : ~ unbalanced (omap (toolLine db) lines))
        by (intros Hu; apply tool_balance_check in Hu; congruence).
      split; [intros Hu; contradiction|].
      split; intros _.
      * intros (line & Hin & Hp). apply tool_bothSides in Hp.
        replace (some Mcp.bothSides _) with true; [reflexivity|].
        symmetry. apply existsb_exists. exists (defaulted line).
        split; [now apply in_map | exact Hp].
      * intros Hno. rewrite some_false.
        2:{ intros x Hx. apply in_map_iff in Hx as (y & <- & Hy).
            destruct (Mcp.bothSides (defaulted y)) eqn:E; [|reflexivity].
            apply tool_bothSides in E. exfalso. exact (Hno y Hy E). }
        exists date, description, (map defaulted (omap (toolLine db) lines)). split.
        -- right. split; [|reflexivity]. exists lines.
           destruct params; simpl in *. congruence.
        -- destruct (Db.createJournalEntry now date description _ db).
           reflexivity.
Qed.

End WellFormedRequests.

(** ** Order of the balance check and of the line check *)






(** ** Lines that are neither debit nor credit *)

(** Any request that passes the structural checks and whose lines all carry
    debit 0 and credit 0 is accepted: the sums are equal and no line has both
    sides positive. *)
Lemma lines_without_amounts_are_accepted (now : Time) (req : CreateRequest)
    (db : Database) (lines : list LineInput) :
  WellFormed db req lines ->
  (forall line, In line lines -> (debitOf line == 0)%Q /\ (creditOf line == 0)%Q) ->
  ~ rejected (fst (submit now req db)).
Proof.
  intros Hwf Hzero.
  destruct (submit_wellFormed now req db lines Hwf) as (_ & _ & Hok).
  destruct Hok as (date & description & stored & _ & ->).
  - unfold unbalanced.
    rewrite (Qsum_pointwise debitOf (fun _ => 0%Q)) by (intros x Hx; apply (Hzero x Hx)).
    rewrite (Qsum_pointwise creditOf (fun _ => 0%Q)) by (intros x Hx; apply (Hzero x Hx)).
    assert (E : (Qsum (map (fun _ : LineInput => 0%Q) lines) == 0)%Q)
      by (clear; induction lines; simpl; lra).
    rewrite E. intros H. vm_compute in H. discriminate.
  - intros line Hin [Hd _]. destruct (Hzero line Hin) as [E _]. lra.
  - simpl. tauto.
Qed.

(** C4, evaluation at the failing input. A request whose two lines carry
    debit 0 and credit 0 is answered 201 by the REST handler and accepted by
    the tool, and the entry is stored with lines on which neither amount is
    positive. *)
Lemma lines_with_both_amounts_zero_are_accepted :
  (exists entry db',
      Routes.postJournalEntries 1 Sample.emptyLinesBody Sample.db0
      = (Data 201 entry, db')
      /\ journalEntries db' = [entry]
      /\ map (fun line => (debitAmount line, creditAmount line)) (e_lines entry)
         = [(Num 0, Num 0); (Num 0, Num 0)])
  /\ (exists entry db',
        Mcp.createJournalEntry 1 Sample.emptyLinesParams Sample.db0
        = (Success entry, db')
        /\ journalEntries db' = [entry]
        /\ map (fun line => (debitAmount line, creditAmount line)) (e_lines entry)
           = [(Num 0, Num 0); (Num 0, Num 0)]).
Proof.
  split; eexists; eexists; (split; [vm_compute; reflexivity|]);
    split; reflexivity.
Qed.

(** ** Closed entries *)


(** ** [find], [findIndex] and updates by index *)

Section FindIndex.

Context {A : Type} (p : A -> bool).

Lemma findIndex_Some (l : list A) (i : nat) :
  findIndex p l = Some i ->
  exists x, l !! i = Some x /\ List.find p l = Some x /\ p x = true.
Proof.
  revert i. induction l as [|y l IH]; simpl; intros i H; [discriminate|].
  destruct (p y) eqn:E.
  - inversion H; subst. exists y. simpl. auto.
  - destruct (findIndex p l) as [j|]; [|discriminate].
    inversion H; subst. destruct (IH j eq_refl) as (x & Hx & Hf & Hp).
    exists x. simpl. auto.
Qed.

Lemma findIndex_None (l : list A) :
  findIndex p l = None -> List.find p l = None.
Proof.
  induction l as [|y l IH]; simpl; [reflexivity|].
  destruct (p y); [discriminate|].
  destruct (findIndex p l); [discriminate|]. auto.
Qed.

Lemma find_Some_findIndex (l : list A) (x : A) :
  List.find p l = Some x -> exists i, findIndex p l = Some i /\ l !! i = Some x.
Proof.
  induction l as [|y l IH]; simpl; [discriminate|].
  destruct (p y).
  - intros H; inversion H; subst. exists 0. auto.
  - intros H. destruct (IH H) as (i & -> & Hi). exists (S i). auto.
Qed.

(** Overwriting the first match by another match: [find] returns the new
    element. *)
Lemma find_insert_first (l : list A) (i : nat) (new : A) :
  findIndex p l = Some i -> p new = true ->
  List.find p (<[i := new]> l) = Some new.
Proof.
  revert i. induction l as [|y l IH]; simpl; intros i H Hn; [discriminate|].
  destruct (p y) eqn:E.
  - inversion H; subst. simpl. now rewrite Hn.
  - destruct (findIndex p l) as [j|]; [|discriminate].
    inversion H; subst. simpl. rewrite E. now apply IH.
Qed.

End FindIndex.

Section AccountArray.

Lemma find_hasId_in (l : list Account) (id : Id) :
  List.find (hasId id) l = None <-> ~ In id (map a_id l).
Proof.
  induction l as [|x l IH]; simpl; [tauto|].
  unfold hasId at 1. destruct (Nat.eqb_spec (a_id x) id) as [E|E].
  - split; [discriminate | intros H; exfalso; apply H; now left].
  - rewrite IH. tauto.
Qed.

(** Removing the first account with a given identifier from an array
    without duplicate identifiers removes the identifier, and only it. *)
Lemma delete_first_hasId (l : list Account) (id : Id) (i : nat) :
  NoDup (map a_id l) -> findIndex (hasId id) l = Some i ->
  List.find (hasId id) (delete i l) = None
  /\ (forall id', id' <> id ->
                  List.find (hasId id') (delete i l) = List.find (hasId id') l)
  /\ NoDup (map a_id (delete i l))
  /\ (forall k, In k (map a_id (delete i l)) <-> In k (map a_id l) /\ k <> id).
Proof.
  revert i. induction l as [|x l IH]; simpl; intros i Hnd H; [discriminate|].
  apply NoDup_cons in Hnd as [Hx Hnd].
  rewrite list_elem_of_In in Hx.
  unfold hasId at 1 in H. destruct (Nat.eqb_spec (a_id x) id) as [E|E].
  - inversion H; subst. simpl.
    split; [now apply find_hasId_in|].
    split; [|split; [exact Hnd|]].
    + intros id' Hne. unfold hasId at 2.
      destruct (Nat.eqb_spec (a_id x) id'); [congruence | reflexivity].
    + intros k. split.
      * intros Hk. split; [now right | intros ->; contradiction].
      * intros [[<-|Hk] Hne]; [congruence | exact Hk].
  - destruct (findIndex (hasId id) l) as [j|] eqn:Hj; [|discriminate].
    inversion H; subst. simpl.
    destruct (IH j Hnd eq_refl) as (H1 & H2 & H3 & H4).
    split; [|split; [|split]].
    + unfold hasId at 1. destruct (Nat.eqb_spec (a_id x) id); [congruence | exact H1].
    + intros id' Hne. unfold hasId at 1 3.
      destruct (Nat.eqb_spec (a_id x) id'); [reflexivity | now apply H2].
    + apply NoDup_cons. split; [|exact H3].
      rewrite list_elem_of_In, H4. tauto.
    + intros k. rewrite H4. split.
      * intros [<-|[Hk Hne]]; [split; [now left | congruence] | tauto].
      * intros [[<-|Hk] Hne]; [now left | right; tauto].
Qed.

End AccountArray.

(** ** Deleting an account *)

Lemma isUsed_referenced (db : Database) (id : Id) :
  Db.isUsed db id = true <-> referenced db id.
Proof.
  unfold Db.isUsed, some, referenced. rewrite existsb_exists. split.
  - intros (entry & Hin & Hl). apply existsb_exists in Hl as (line & Hl & E).
    apply Nat.eqb_eq in E. eauto.
  - intros (entry & line & Hin & Hl & E). exists entry. split; [exact Hin|].
    apply existsb_exists. exists line. split; [exact Hl | now apply Nat.eqb_eq].
Qed.

(** C6. Deleting an account is guarded by usage. When at least one line of a
    stored entry references the account, the deletion fails (400 on the REST
    surface) and the store, hence the account, is retained. When the account
    exists and no line references it, the deletion succeeds (204): the
    account can no longer be found, every other account is still found as
    before, and the entries are untouched. *)
Theorem account_deletion_guarded_by_usage (db : Database) (id : Id) :
  NoDup (map a_id (accounts db)) ->
  (referenced db id ->
   Db.deleteAccount id db = (false, db)
   /\ Routes.deleteAccounts id db = (Error 400 CannotDeleteAccount, db))
  /\ (~ referenced db id -> is_Some (Db.getAccountById db id) ->
      exists db',
        Db.deleteAccount id db = (true, db')
        /\ Routes.deleteAccounts id db = (NoContent 204, db')
        /\ Db.getAccountById db' id = None
        /\ (forall id', id' <> id ->
                        Db.getAccountById db' id' = Db.getAccountById db id')
        /\ journalEntries db' = journalEntries db).
Proof.
  intros Hnd. split.
  - intros Hused. apply isUsed_referenced in Hused.
    unfold Routes.deleteAccounts, Db.deleteAccount. now rewrite Hused.
  - intros Hunused [acc Hacc].
    assert (Hu : Db.isUsed db id = false).
    { destruct (Db.isUsed db id) eqn:E; [|reflexivity].
      apply isUsed_referenced in E. contradiction. }
    unfold Db.getAccountById in Hacc.
    apply find_Some_findIndex in Hacc as (i & Hi & _).
    destruct (delete_first_hasId (accounts db) id i Hnd Hi) as (H1 & H2 & _).
    unfold Routes.deleteAccounts, Db.deleteAccount. rewrite Hu.
    rewrite Hi. eexists. split; [reflexivity|]. split; [reflexivity|].
    split; [exact H1|]. split; [exact H2 | reflexivity].
Qed.

Lemma account_deletion_guarded_by_usage_witness :
  (Db.deleteAccount 0 Sample.db1 = (false, Sample.db1)
   /\ Routes.deleteAccounts 0 Sample.db1
      = (Error 400 CannotDeleteAccount, Sample.db1))
  /\ (exists db',
        Db.deleteAccount 5 Sample.db1 = (true, db')
        /\ Routes.deleteAccounts 5 Sample.db1 = (NoContent 204, db')
        /\ Db.getAccountById db' 5 = None
        /\ (forall id', id' <> 5 ->
                        Db.getAccountById db' id' = Db.getAccountById Sample.db1 id')
        /\ journalEntries db' = journalEntries Sample.db1).
Proof.
  assert (Hnd : NoDup (map a_id (accounts Sample.db1))).
  { decide_by_computation. }
  split.
  - apply (account_deletion_guarded_by_usage Sample.db1 0 Hnd).
    apply isUsed_referenced. vm_compute. reflexivity.
  - apply (account_deletion_guarded_by_usage Sample.db1 5 Hnd).
    + intros H. apply isUsed_referenced in H. vm_compute in H. discriminate.
    + vm_compute. eauto.
Defined.

(** ** Updating an account *)

Section AccountUpdate.

(** What an update by index does to the array, element by element. *)
Lemma Forall2_insert_same {A : Type} (R : A -> A -> Prop) (l : list A) (i : nat)
    (old new : A) :
  (forall x, R x x) -> l !! i = Some old -> R old new ->
  Forall2 R l (<[i := new]> l).
Proof.
  intros Hrefl. revert i. induction l as [|y l IH]; intros i Hi Hr; [discriminate|].
  destruct i as [|i]; simpl in *.
  - inversion Hi; subst. constructor; [exact Hr|].
    clear - Hrefl. induction l; constructor; auto.
  - constructor; [apply Hrefl | now apply IH].
Qed.

End AccountUpdate.

(** C9. The REST account update never changes the code or the type of an
    account, whatever the body carries: after [PUT /accounts/:id] every
    stored account has the identifier, code, type, parent and creation time
    it had, accounts other than the addressed one are untouched, and so are
    the journal entries. Only the name, the category and the update time of
    the addressed account can differ. *)
Theorem account_update_keeps_code_and_type
    (now : Time) (id : Id) (body : AccountBody) (db : Database) :
  Forall2 (fun old new =>
             a_id new = a_id old /\ a_code new = a_code old
             /\ a_type new = a_type old /\ a_parentId new = a_parentId old
             /\ a_createdAt new = a_createdAt old
             /\ (a_id old <> id -> new = old))
          (accounts db) (accounts (snd (Routes.putAccounts now id body db)))
  /\ journalEntries (snd (Routes.putAccounts now id body db)) = journalEntries db.
Proof.
  unfold Routes.putAccounts, Db.updateAccount.
  destruct (findIndex _ (accounts db)) as [index|] eqn:Hi.
  - destruct (findIndex_Some _ _ _ Hi) as (old & Hold & _ & Hp).
    rewrite Hold. simpl. split; [|reflexivity].
    eapply Forall2_insert_same; [|exact Hold|].
    + intros x. repeat split; reflexivity.
    + apply Nat.eqb_eq in Hp. simpl. repeat split; try reflexivity.
      intros Hne. contradiction.
  - simpl. split; [|reflexivity].
    clear Hi. induction (accounts db); constructor; auto.
    repeat split; reflexivity.
Qed.

(** C10. In the REST account update, a body that omits [name] does not leave
    the name of an existing account unchanged: the stored account is answered
    with status 200 and its name is [undefined] afterwards, whatever it was
    before; likewise for [category]. *)
Theorem account_update_overwrites_omitted_fields
    (now : Time) (id : Id) (body : AccountBody) (db : Database) (acc : Account) :
  Db.getAccountById db id = Some acc ->
  exists new,
    Routes.putAccounts now id body db
    = (Data 200 new, snd (Routes.putAccounts now id body db))
    /\ Db.getAccountById (snd (Routes.putAccounts now id body db)) id = Some new
    /\ a_name new = ab_name body
    /\ a_category new = ab_category body
    /\ (ab_name body = None -> a_name new = None)
    /\ (ab_category body = None -> a_category new = None).
Proof.
  intros Hacc. unfold Db.getAccountById in Hacc.
  destruct (find_Some_findIndex _ _ _ Hacc) as (i & Hi & Hl).
  unfold Routes.putAccounts, Db.updateAccount. rewrite Hi, Hl. simpl.
  eexists. split; [reflexivity|].
  split.
  - unfold Db.getAccountById. simpl. apply find_insert_first; [exact Hi|].
    simpl. destruct (findIndex_Some _ _ _ Hi) as (x & Hx & _ & Hp).
    assert (x = acc) by congruence. subst. exact Hp.
  - simpl. repeat split; auto.
Qed.

Lemma account_update_overwrites_omitted_fields_witness :
  (a_name <$> Db.getAccountById Sample.db0 0) = Some (Some "現金")
  /\ exists new,
      Routes.putAccounts 1 0 Sample.patchWithoutName Sample.db0
      = (Data 200 new, snd (Routes.putAccounts 1 0 Sample.patchWithoutName Sample.db0))
      /\ Db.getAccountById (snd (Routes.putAccounts 1 0 Sample.patchWithoutName Sample.db0)) 0
         = Some new
      /\ a_name new = None.
Proof.
  split; [reflexivity|].
  destruct (account_update_overwrites_omitted_fields 1 0 Sample.patchWithoutName Sample.db0
              _ eq_refl) as (new & H1 & H2 & _ & _ & H3 & _).
  exists new. split; [exact H1|]. split; [exact H2|]. apply H3. reflexivity.
Defined.

(** ** Value equality of numbers *)

Section NumberEquality.









End NumberEquality.

(** ** Loops over the lines of the entries *)

Section Loops.

Context {S : Type}.

Lemma fold_left_lines (g : S -> JournalLine -> S) (entries : list JournalEntry)
    (s : S) :
  fold_left (fun s entry => fold_left g (e_lines entry) s) entries s
  = fold_left g (flat_map e_lines entries) s.
Proof.
  revert s. induction entries as [|entry entries IH]; intros s; simpl.
  - reflexivity.
  - now rewrite IH, fold_left_app.
Qed.



End Loops.

(** ** The account balance *)


Lemma fold_left_pointwise {S A : Type} (f g : S -> A -> S) (l : list A) (s : S) :
  (forall s x, f s x = g s x) -> fold_left f l s = fold_left g l s.
Proof.
  intros H. revert s. induction l as [|x l IH]; intros s; simpl; [reflexivity|].
  now rewrite H, IH.
Qed.




(** ** What [createJournalEntry] stores *)

Section StoredLines.

Lemma map_imap {A B C : Type} (f : nat -> A -> B) (g : B -> C) (h : A -> C)
    (l : list A) :
  (forall i x, g (f i x) = h x) -> map g (imap f l) = map h l.
Proof.
  revert f. induction l as [|x l IH]; intros f H; [reflexivity|].
  rewrite imap_cons. simpl. rewrite H. f_equal. apply IH.
  intros i y. apply H.
Qed.

(** The stored lines carry the account and the amounts of the submitted
    lines, in order. *)
Lemma createJournalEntry_lines {C : Type} (g : Id -> number -> number -> C)
    (now : Time) (date description : string) (lines : list LineInput)
    (db : Database) :
  map (fun line => g (l_accountId line) (debitAmount line) (creditAmount line))
      (e_lines (fst (Db.createJournalEntry now date description lines db)))
  = map (fun line => g (li_accountId line) (li_debitAmount line)
                       (li_creditAmount line)) lines.
Proof.
  unfold Db.createJournalEntry. simpl. rewrite !map_map.
  unfold Db.stampIds. apply map_imap. reflexivity.
Qed.

Lemma createJournalEntry_store (now : Time) (date description : string)
    (lines : list LineInput) (db : Database) :
  let '(entry, db') := Db.createJournalEntry now date description lines db in
  accounts db' = accounts db
  /\ journalEntries db' = journalEntries db ++ [entry]
  /\ nextUuid db <= nextUuid db'.
Proof. simpl. repeat split. lia. Qed.

End StoredLines.

(** ** The invariant of the store *)

Section Invariant.










End Invariant.

Section InvariantOfCreate.




Lemma found_by_id (db : Database) (id : Id) :
  Db.getAccountById db id <> None -> In id (map a_id (accounts db)).
Proof.
  intros H. destruct (in_dec Nat.eq_dec id (map a_id (accounts db))) as [Hin|Hout];
    [exact Hin|].
  exfalso. apply H. now apply find_hasId_in.
Qed.

Lemma toolLine_account (db : Database) (line : McpLine) (resolved : LineInput) :
  toolLine db line = Some resolved ->
  In (li_accountId resolved) (map a_id (accounts db)).
Proof.
  unfold toolLine, Db.getAccountByCode.
  destruct (List.find _ (accounts db)) as [account|] eqn:F; [|discriminate].
  intros E. inversion E; subst. simpl.
  apply find_some in F as [Hin _]. now apply in_map.
Qed.





End InvariantOfCreate.

(** ** The trial balance *)

Section TrialBalance.

Lemma getOrZero_is_num (m : gmap Id number) (k : Id) :
  getOrZero m k = Num (Number.val (getOrZero m k)).
Proof.
  unfold getOrZero. destruct (m !! k); [apply orZero_is_num | reflexivity].
Qed.




Lemma initMap_lookup (accs : list Account) (k : Id) :
  (Number.val (getOrZero (Db.initMap accs) k) == 0)%Q.
Proof.
  unfold Db.initMap.
  assert (H : forall m : gmap Id number,
             (forall v, m !! k = Some v -> v = Number.zero) ->
             forall v, fold_left (fun m account => <[a_id account := Number.zero]> m)
                                 accs m !! k = Some v -> v = Number.zero).
  { induction accs as [|account accs IH]; intros m Hm; simpl; [exact Hm|].
    apply IH. intros v. destruct (decide (a_id account = k)) as [->|Hne].
    - rewrite lookup_insert_eq. congruence.
    - rewrite lookup_insert_ne by exact Hne. apply Hm. }
  unfold getOrZero.
  destruct (fold_left _ accs ∅ !! k) as [v|] eqn:E; [|reflexivity].
  rewrite (H ∅ (fun v Hv => ltac:(rewrite lookup_empty in Hv; discriminate)) v E).
  reflexivity.
Qed.

Lemma mapTotal_initMap (accs : list Account) (ids : list Id) :
  (mapTotal ids (Db.initMap accs) == 0)%Q.
Proof.
  unfold mapTotal. induction ids as [|k ids IH]; simpl; [reflexivity|].
  rewrite initMap_lookup, IH. lra.
Qed.

(** Overwriting the value at a key that occurs once among the identifiers
    changes the total by the difference. *)
Lemma mapTotal_insert (ids : list Id) (m : gmap Id number) (k : Id) (w : Q) :
  NoDup ids -> In k ids ->
  (mapTotal ids (<[k := Num w]> m)
   == mapTotal ids m + (w - Number.val (getOrZero m k)))%Q.
Proof.
  assert (Hk : (Number.val (getOrZero (<[k := Num w]> m) k) == w)%Q).
  { unfold getOrZero. rewrite lookup_insert_eq. apply orZero_val. }
  assert (Hother : forall k', k' <> k ->
             getOrZero (<[k := Num w]> m) k' = getOrZero m k').
  { intros k' Hne. unfold getOrZero. now rewrite lookup_insert_ne. }
  unfold mapTotal. induction ids as [|x ids IH]; intros Hnd Hin; [destruct Hin|].
  apply NoDup_cons in Hnd as [Hx Hnd]. rewrite list_elem_of_In in Hx.
  simpl. destruct Hin as [->|Hin].
  - rewrite Hk.
    rewrite (Qsum_pointwise
               (fun id => Number.val (getOrZero (<[k := Num w]> m) id))
               (fun id => Number.val (getOrZero m id))).
    + lra.
    + intros y Hy. rewrite Hother; [reflexivity|]. intros ->. contradiction.
  - destruct (Nat.eq_dec x k) as [->|Hne]; [contradiction|].
    rewrite (IH Hnd Hin). rewrite (Hother x Hne). lra.
Qed.




End TrialBalance.

Lemma upTo_sublist (asOfDate : option string) (entries : list JournalEntry)
    (entry : JournalEntry) :
  In entry (upTo asOfDate entries) -> In entry entries.
Proof.
  destruct asOfDate as [d|]; simpl; [|tauto].
  destruct (nonEmpty d); [|tauto]. intros H. apply filter_In in H. tauto.
Qed.




(** ** The balance sheet *)

(** C8, evaluation at the failing input. After the purchase of 100 paid in
    cash (debit 100 to an expense account, credit 100 to cash), the only
    stored entry has exactly equal debit and credit sums, and the balance
    sheet reads assets -100, liabilities 0, equity 100: assets and
    liabilities plus equity differ by 200. *)
Lemma balance_sheet_identity_fails_with_an_expense :
  Forall exactlyBalanced (journalEntries Sample.afterPurchase)
  /\ length (journalEntries Sample.afterPurchase) = 1
  /\ Db.getBalanceSheet Sample.afterPurchase None
     = {| bs_assets := Num (-100); bs_liabilities := Num 0; bs_equity := Num 100 |}
  /\ ~ (Qabs (-100 - (0 + 100)) <= tolerance)%Q.
Proof.
  split.
  - vm_compute. constructor; [reflexivity | constructor].
  - split; [vm_compute; reflexivity|].
    split; [vm_compute; reflexivity|].
    vm_compute. intros H. apply H. reflexivity.
Qed.

(** The identity of the balance sheet, on any consistent store of exactly
    balanced entries: assets and liabilities plus equity differ by twice the
    sum of the raw balances of the expense accounts. *)
Section BalanceSheet.

Lemma mapTotal_balances (ids : list Id) (lines : list JournalLine)
    (m : gmap Id number) :
  NoDup ids ->
  (forall line, In line lines -> In (l_accountId line) ids /\ numericLine line) ->
  (mapTotal ids (fold_left Db.balanceLine lines m)
   == mapTotal ids m + Qsum (map (fun line => lineDebit line - lineCredit line) lines))%Q.
Proof.
  intros Hnd. revert m. induction lines as [|line lines IH]; intros m H; simpl.
  - lra.
  - destruct (H line (or_introl eq_refl)) as [Hin [Hd Hc]].
    rewrite IH by (intros l Hl; apply H; now right).
    unfold Db.balanceLine, lineDebit, lineCredit.
    rewrite (getOrZero_is_num m (l_accountId line)).
    destruct (debitAmount line) as [d|]; [|contradiction].
    destruct (creditAmount line) as [c|]; [|contradiction].
    cbn [Number.add Number.sub Number.val].
    rewrite (mapTotal_insert ids m (l_accountId line) _ Hnd Hin). lra.
Qed.

(** The closing loop over the accounts. *)
Lemma sheet_loop (balances : gmap Id number) (accs : list Account) (a l e : Q) :
  exists a' l' e',
    fold_left
      (fun '(assets, liabilities, equity') account =>
         let balance := getOrZero balances (a_id account) in
         match a_type account with
         | asset => (Number.add assets balance, liabilities, equity')
         | liability => (assets, Number.sub liabilities balance, equity')
         | equity => (assets, liabilities, Number.sub equity' balance)
         | revenue => (assets, liabilities, Number.sub equity' balance)
         | expense => (assets, liabilities, Number.add equity' balance)
         end)
      accs (Num a, Num l, Num e) = (Num a', Num l', Num e')
    /\ (a' - (l' + e')
        == a - (l + e) + mapTotal (map a_id accs) balances
           - 2 * Qsum (map (rawBalance balances) (List.filter isExpense accs)))%Q.
Proof.
  revert a l e. induction accs as [|account accs IH]; intros a l e.
  - exists a, l, e. split; [reflexivity|]. unfold mapTotal. simpl. lra.
  - cbn [fold_left]. cbv zeta.
    rewrite (getOrZero_is_num balances (a_id account)).
    unfold mapTotal, isExpense in *. cbn [map List.filter].
    change (Qsum (?x :: ?r)) with (x + Qsum r)%Q.
    destruct (a_type account); cbn [Number.add Number.sub];
      match goal with
      | |- context [fold_left _ accs (Num ?x, Num ?y, Num ?z)] =>
          destruct (IH x y z) as (a' & l' & e' & -> & Hsum)
      end;
      exists a', l', e'; (split; [reflexivity|]);
      cbn [map]; unfold rawBalance in *;
      try change (Qsum (?x :: ?r)) with (x + Qsum r)%Q; lra.
Qed.

Lemma getBalanceSheet_defect (db : Database) (asOfDate : option string) :
  Consistent db ->
  Forall exactlyBalanced (upTo asOfDate (journalEntries db)) ->
  exists a l e,
    Db.getBalanceSheet db asOfDate
    = {| bs_assets := Num a; bs_liabilities := Num l; bs_equity := Num e |}
    /\ (a - (l + e) == - (2 * expenseTotal db asOfDate))%Q.
Proof.
  intros [H1 _ _ H4] Hexact.
  assert (Hgood : forall line,
             In line (flat_map e_lines (upTo asOfDate (journalEntries db))) ->
             In (l_accountId line) (map a_id (accounts db)) /\ numericLine line).
  { intros line Hin. apply in_flat_map in Hin as (entry & He & Hl).
    apply upTo_sublist in He.
    rewrite List.Forall_forall in H4. destruct (H4 entry He) as [Hlines _].
    rewrite List.Forall_forall in Hlines. now apply Hlines. }
  unfold Db.getBalanceSheet, expenseTotal. cbv zeta.
  change (fold_left
            (fun balances entry => fold_left Db.balanceLine (e_lines entry) balances)
            (upTo asOfDate (journalEntries db)) (Db.initMap (accounts db)))
    with (balancesOf db asOfDate).
  destruct (sheet_loop (balancesOf db asOfDate) (accounts db) 0 0 0)
    as (a & l & e & Hloop & Hsum).
  cbv zeta in Hloop. unfold Number.zero. rewrite Hloop.
  exists a, l, e. split; [reflexivity|].
  rewrite Hsum.
  assert (Hzero : (mapTotal (map a_id (accounts db)) (balancesOf db asOfDate) == 0)%Q).
  { unfold balancesOf. rewrite fold_left_lines.
    rewrite (mapTotal_balances _ _ _ H1 Hgood), mapTotal_initMap.
    rewrite (Qsum_flat_map (fun line => lineDebit line - lineCredit line)%Q).
    rewrite (Qsum_pointwise _ (fun _ => 0%Q)).
    - clear. induction (upTo asOfDate (journalEntries db)); simpl; lra.
    - intros entry Hin. rewrite Qsum_minus.
      rewrite List.Forall_forall in Hexact. specialize (Hexact entry Hin).
      unfold exactlyBalanced, entryDebit, entryCredit in Hexact. lra. }
  rewrite Hzero. lra.
Qed.

End BalanceSheet.

(** ** Supporting evaluations *)

(** The flag [isClosed] is read by neither handler: whatever it holds, an
    existing entry is updated with status 200 and deleted with status 204. *)
Lemma closed_flag_is_ignored (now : Time) (id : Id) (body : EntryBody)
    (db : Database) (entry : JournalEntry) :
  Db.getJournalEntryById db id = Some entry ->
  status (fst (Routes.putJournalEntries now id body db)) = 200
  /\ status (fst (Routes.deleteJournalEntries id db)) = 204.
Proof.
  intros H. unfold Db.getJournalEntryById in H.
  apply find_Some_findIndex in H as (i & Hi & Hl).
  unfold Routes.putJournalEntries, Routes.deleteJournalEntries,
    Db.updateJournalEntry, Db.deleteJournalEntry.
  rewrite Hi, Hl. split; reflexivity.
Qed.

(** A REST line that omits an amount is stored without it, and the tally of
    the trial balance then forgets what the account had accumulated: after a
    sale of 50 and an entry whose cash line has no debit amount, total debit
    is 30 and total credit is 80. *)
Lemma missing_amount_erases_tally :
  Db.getTrialBalance
    (run (newDatabase 0)
       [ (1, PostJournalEntries
               (Sample.entryBody [Sample.debit 0 50; Sample.credit 11 50]));
         (2, PostJournalEntries
               (Sample.entryBody
                  [ {| li_accountId := 0; li_debitAmount := NaN;
                       li_creditAmount := Num 30 |};
                    Sample.debit 13 30 ])) ])
    None
  = {| totalDebit := Num 30; totalCredit := Num 80 |}.
Proof. vm_compute. reflexivity. Qed.

(** * Further properties *)

(** ** Lookups in arrays without duplicate keys *)

Section UniqueKeys.

Context {A K : Type} (key : A -> K) (eqb : K -> K -> bool).
Hypothesis eqb_spec : forall a b, eqb a b = true <-> a = b.

Lemma find_by_key_None (l : list A) (k : K) :
  List.find (fun x => eqb (key x) k) l = None <-> ~ In k (map key l).
Proof.
  induction l as [|x l IH]; simpl; [tauto|].
  destruct (eqb (key x) k) eqn:E.
  - apply eqb_spec in E. split; [discriminate | intros H; exfalso; apply H; now left].
  - rewrite IH. split; [|tauto]. intros H [Hx|Hin]; [|tauto].
    apply eqb_spec in Hx. congruence.
Qed.

(** In an array without duplicate keys every element is found by its key. *)
Lemma find_by_key (l : list A) (x : A) :
  NoDup (map key l) -> In x l ->
  List.find (fun y => eqb (key y) (key x)) l = Some x.
Proof.
  induction l as [|y l IH]; intros Hnd Hin; [destruct Hin|].
  simpl in Hnd. apply NoDup_cons in Hnd as [Hy Hnd]. rewrite list_elem_of_In in Hy.
  simpl. destruct Hin as [->|Hin].
  - replace (eqb (key x) (key x)) with true; [reflexivity|].
    symmetry. now apply eqb_spec.
  - destruct (eqb (key y) (key x)) eqn:E; [|now apply IH].
    apply eqb_spec in E. exfalso. apply Hy. rewrite E. now apply in_map.
Qed.

(** Appending an element with a new key: it is found by its key, and the
    other keys are looked up as before. *)
Lemma find_by_key_app (l : list A) (x : A) (k : K) :
  ~ In (key x) (map key l) ->
  List.find (fun y => eqb (key y) k) (l ++ [x])
  = if eqb (key x) k then Some x else List.find (fun y => eqb (key y) k) l.
Proof.
  intros Hnew. induction l as [|y l IH]; simpl.
  - destruct (eqb (key x) k); reflexivity.
  - destruct (eqb (key y) k) eqn:E.
    + destruct (eqb (key x) k) eqn:Ex; [|reflexivity].
      apply eqb_spec in E, Ex. exfalso. apply Hnew. left. congruence.
    + apply IH. intros H. apply Hnew. now right.
Qed.

End UniqueKeys.

Lemma nat_eqb_spec (a b : nat) : Nat.eqb a b = true <-> a = b.
Proof. apply Nat.eqb_eq. Qed.

Lemma string_eqb_spec (a b : string) : String.eqb a b = true <-> a = b.
Proof. apply String.eqb_eq. Qed.

Lemma val_orZero_any (x : number) :
  (Number.val (Number.orZero x) == Number.val x)%Q.
Proof. destruct x as [a|]; [apply orZero_val | reflexivity]. Qed.

(** ** The integrity of the store is kept by every request *)

Section IntegrityKept.

Lemma integrity_newDatabase (now : Time) : Integrity (newDatabase now).
Proof.
  constructor; simpl; try decide_by_computation; try constructor.
Qed.

Lemma integrity_reset (now : Time) (db : Database) :
  Integrity db -> Integrity (resetDatabase now db).
Proof.
  intros H. pose proof (supply_past_seed db H) as Hs.
  constructor; simpl.
  - decide_by_computation.
  - decide_by_computation.
  - constructor.
  - eapply Forall_impl with (P := fun id => id < 19); [decide_by_computation|].
    intros x Hx. simpl in *. clear - Hx Hs. lia.
  - constructor.
  - exact Hs.
  - constructor.
  - constructor.
  - constructor.
Qed.

(** Changes that keep the identifiers of the accounts, the entries and the
    supply. *)
Lemma integrity_same_keys (db db' : Database) :
  map a_id (accounts db') = map a_id (accounts db) ->
  map a_code (accounts db') = map a_code (accounts db) ->
  map e_id (journalEntries db') = map e_id (journalEntries db) ->
  map e_lines (journalEntries db') = map e_lines (journalEntries db) ->
  nextUuid db' = nextUuid db ->
  Integrity db -> Integrity db'.
Proof.
  intros Hids Hcodes Heids Hlines Hnext [H1 H2 H3 H4 H5 H6 H7 H8 H9].
  assert (Hfa : forall P : list JournalLine -> Prop,
             Forall (fun entry => P (e_lines entry)) (journalEntries db) ->
             Forall (fun entry => P (e_lines entry)) (journalEntries db')).
  { intros P HP.
    apply (Forall_fmap e_lines P) in HP. apply (Forall_fmap e_lines P).
    change (e_lines <$> ?l) with (map e_lines l) in *. now rewrite Hlines. }
  constructor; rewrite ?Hids, ?Hcodes, ?Heids, ?Hnext; try assumption.
  - exact (Hfa (fun ls => 2 <= length ls) H7).
  - exact (Hfa (fun ls => Forall (fun line => In (l_accountId line)
                                              (map a_id (accounts db))) ls) H8).
  - exact (Hfa (fun ls => Forall oneSided ls) H9).
Qed.

Lemma integrity_postAccounts (now : Time) (body : AccountBody) (db : Database) :
  Integrity db -> Integrity (snd (Routes.postAccounts now body db)).
Proof.
  intros H. unfold Routes.postAccounts.
  destruct (ab_code body) as [code|]; [|exact H].
  destruct (ab_type body) as [type|]; [|exact H].
  destruct (_ || _); [exact H|].
  destruct (Db.getAccountByCode db code) eqn:Hcode; [exact H|].
  unfold Db.getAccountByCode in Hcode.
  apply (find_by_key_None a_code String.eqb string_eqb_spec) in Hcode.
  destruct H as [H1 H2 H3 H4 H5 H6 H7 H8 H9].
  constructor; simpl; rewrite ?map_app; simpl; try assumption.
  - apply NoDup_app. split; [exact H1|]. split; [|apply NoDup_singleton].
    intros id Hin Hnew. apply list_elem_of_In in Hin, Hnew.
    destruct Hnew as [<-|[]].
    rewrite List.Forall_forall in H4. specialize (H4 _ Hin). clear - H4. lia.
  - apply NoDup_app. split; [exact H2|]. split; [|apply NoDup_singleton].
    intros c Hin Hnew. apply list_elem_of_In in Hin, Hnew.
    destruct Hnew as [<-|[]]. contradiction.
  - apply Forall_app. split.
    + eapply Forall_impl; [exact H4|]. intros x Hx. simpl in *. clear - Hx. lia.
    + constructor; [apply Nat.lt_succ_diag_r | constructor].
  - eapply Forall_impl; [exact H5|]. intros x Hx. simpl in *. clear - Hx. lia.
  - clear - H6. lia.
  - eapply Forall_impl; [exact H8|]. intros entry Hentry. simpl in *.
    eapply Forall_impl; [exact Hentry|]. intros line Hline. simpl in *.
    apply in_or_app. now left.
Qed.

Lemma integrity_putAccounts (now : Time) (id : Id) (body : AccountBody)
    (db : Database) :
  Integrity db -> Integrity (snd (Routes.putAccounts now id body db)).
Proof.
  intros H. unfold Routes.putAccounts, Db.updateAccount.
  destruct (findIndex _ (accounts db)) as [index|] eqn:Hi; [|exact H].
  destruct (findIndex_Some _ _ _ Hi) as (old & Hold & _ & _).
  rewrite Hold. simpl.
  apply (integrity_same_keys db); try reflexivity; [| |exact H]; simpl.
  - change (map a_id ?l) with (a_id <$> l).
    rewrite list_fmap_insert. apply list_insert_id.
    rewrite list_lookup_fmap, Hold. reflexivity.
  - change (map a_code ?l) with (a_code <$> l).
    rewrite list_fmap_insert. apply list_insert_id.
    rewrite list_lookup_fmap, Hold. reflexivity.
Qed.

Lemma integrity_deleteAccounts (id : Id) (db : Database) :
  Integrity db -> Integrity (snd (Routes.deleteAccounts id db)).
Proof.
  intros H. unfold Routes.deleteAccounts, Db.deleteAccount.
  destruct (Db.isUsed db id) eqn:Hu; [exact H|].
  destruct (findIndex _ (accounts db)) as [index|] eqn:Hi; [|exact H].
  destruct H as [H1 H2 H3 H4 H5 H6 H7 H8 H9].
  destruct (delete_first_hasId (accounts db) id index H1 Hi) as (_ & _ & Hnd & Hmem).
  constructor; simpl; try assumption.
  - change (map a_code ?l) with (a_code <$> l). rewrite list_fmap_delete.
    eapply sublist_NoDup; [exact H2 | apply sublist_delete].
  - rewrite List.Forall_forall in *. intros k Hk. apply H4. now apply Hmem.
  - rewrite List.Forall_forall in *. intros entry Hentry.
    specialize (H8 entry Hentry). rewrite List.Forall_forall in *.
    intros line Hline. apply Hmem. split; [now apply H8|].
    intros E. assert (Db.isUsed db id = true); [|congruence].
    apply isUsed_referenced. exists entry, line. auto.
Qed.

Lemma integrity_createJournalEntry (now : Time) (date description : string)
    (lines : list LineInput) (db : Database) :
  Integrity db ->
  2 <= length lines ->
  (forall line, In line lines -> In (li_accountId line) (map a_id (accounts db))) ->
  (forall line, In line lines -> ~ bothPositive line) ->
  Integrity (snd (Db.createJournalEntry now date description lines db)).
Proof.
  intros [H1 H2 H3 H4 H5 H6 H7 H8 H9] Hlen Hacc Hboth.
  pose proof (createJournalEntry_lines (fun id d c => (id, d, c))
                now date description lines db) as Hlines.
  cbv beta in Hlines.
  set (entry := fst (Db.createJournalEntry now date description lines db)) in *.
  assert (Hstored : forall line, In line (e_lines entry) ->
            exists input, In input lines /\ li_accountId input = l_accountId line
                          /\ li_debitAmount input = debitAmount line
                          /\ li_creditAmount input = creditAmount line).
  { intros line Hin.
    apply (in_map (fun line => (l_accountId line, debitAmount line, creditAmount line)))
      in Hin.
    rewrite Hlines in Hin. apply in_map_iff in Hin as (input & E & Hinput).
    inversion E. eauto. }
  constructor; simpl; rewrite ?map_app; simpl; try assumption.
  - apply NoDup_app. split; [exact H3|]. split; [|apply NoDup_singleton].
    intros id Hin Hnew. apply list_elem_of_In in Hin, Hnew.
    destruct Hnew as [<-|[]].
    rewrite List.Forall_forall in H5. specialize (H5 _ Hin). clear - H5. lia.
  - eapply Forall_impl; [exact H4|]. intros x Hx. simpl in *. clear - Hx. lia.
  - apply Forall_app. split.
    + eapply Forall_impl; [exact H5|]. intros x Hx. simpl in *. clear - Hx. lia.
    + constructor; [|constructor]. clear. lia.
  - clear - H6. lia.
  - apply Forall_app. split; [exact H7|]. constructor; [|constructor].
    simpl. rewrite !length_map. unfold Db.stampIds. rewrite length_imap. exact Hlen.
  - apply Forall_app. split; [exact H8|]. constructor; [|constructor].
    apply List.Forall_forall. intros line Hin.
    destruct (Hstored line Hin) as (input & Hinput & E & _). rewrite <- E. auto.
  - apply Forall_app. split; [exact H9|]. constructor; [|constructor].
    apply List.Forall_forall. intros line Hin.
    destruct (Hstored line Hin) as (input & Hinput & _ & Ed & Ec).
    intros [Hd Hc]. apply (Hboth input Hinput).
    unfold bothPositive, debitOf, creditOf, lineDebit, lineCredit in *.
    rewrite !val_orZero_any, Ed, Ec. split; assumption.
Qed.

Lemma integrity_postJournalEntries (now : Time) (body : EntryBody) (db : Database) :
  Integrity db -> Integrity (snd (Routes.postJournalEntries now body db)).
Proof.
  intros Hdb. pose proof (postJournalEntries_spec now body db) as Hspec.
  destruct (Routes.postJournalEntries now body db) as [[s entry|s err|s] db'].
  - destruct Hspec as (_ & date & description & lines & _ & _ & _ & _ & _ & Hlen
                       & Hacc & _ & Hboth & Hc).
    simpl. replace db' with (snd (Db.createJournalEntry now date description lines db))
      by (now rewrite <- Hc).
    apply integrity_createJournalEntry; try assumption.
    intros line Hin. apply found_by_id. now apply Hacc.
  - destruct Hspec as [_ ->]. exact Hdb.
  - contradiction.
Qed.

Lemma integrity_tool_create (now : Time) (params : McpParams) (db : Database) :
  Integrity db -> Integrity (snd (Mcp.createJournalEntry now params db)).
Proof.
  intros Hdb. pose proof (createJournalEntry_spec now params db) as Hspec.
  destruct (Mcp.createJournalEntry now params db) as [[entry|err] db'].
  - destruct Hspec as (date & description & lines & _ & _ & _ & _ & _ & Hlen
                       & Hall & _ & Hboth & Hc).
    simpl. replace db' with
      (snd (Db.createJournalEntry now date description
              (map defaulted (omap (toolLine db) lines)) db))
      by (now rewrite <- Hc).
    assert (Hsame : length (omap (toolLine db) lines) = length lines).
    { clear - Hall. induction Hall as [|l ls [r Hr] _ IH]; [reflexivity|].
      simpl. rewrite Hr. simpl. f_equal. exact IH. }
    apply integrity_createJournalEntry; try assumption.
    + rewrite length_map, Hsame. exact Hlen.
    + intros line Hin. apply in_map_iff in Hin as (r & <- & Hr). simpl.
      apply list_elem_of_In, list_elem_of_omap in Hr as (l & _ & Hl).
      exact (toolLine_account db l r Hl).
    + intros line Hin. apply in_map_iff in Hin as (r & <- & Hr).
      intros [Hd Hc']. apply (Hboth r Hr).
      rewrite debitOf_defaulted in Hd. rewrite creditOf_defaulted in Hc'.
      split; assumption.
  - subst. exact Hdb.
Qed.

Lemma integrity_putJournalEntries (now : Time) (id : Id) (body : EntryBody)
    (db : Database) :
  Integrity db -> Integrity (snd (Routes.putJournalEntries now id body db)).
Proof.
  intros H. unfold Routes.putJournalEntries, Db.updateJournalEntry.
  destruct (findIndex _ (journalEntries db)) as [index|] eqn:Hi; [|exact H].
  destruct (findIndex_Some _ _ _ Hi) as (old & Hold & _ & _).
  rewrite Hold. simpl.
  apply (integrity_same_keys db); try reflexivity; [| |exact H]; simpl.
  - change (map e_id ?l) with (e_id <$> l).
    rewrite list_fmap_insert. apply list_insert_id.
    rewrite list_lookup_fmap, Hold. reflexivity.
  - change (map e_lines ?l) with (e_lines <$> l).
    rewrite list_fmap_insert. apply list_insert_id.
    rewrite list_lookup_fmap, Hold. reflexivity.
Qed.

Lemma integrity_deleteJournalEntries (id : Id) (db : Database) :
  Integrity db -> Integrity (snd (Routes.deleteJournalEntries id db)).
Proof.
  intros H. unfold Routes.deleteJournalEntries, Db.deleteJournalEntry.
  destruct (findIndex _ (journalEntries db)) as [index|] eqn:Hi; [|exact H].
  destruct H as [H1 H2 H3 H4 H5 H6 H7 H8 H9].
  constructor; simpl; try assumption.
  - change (map e_id ?l) with (e_id <$> l). rewrite list_fmap_delete.
    eapply sublist_NoDup; [exact H3 | apply sublist_delete].
  - change (map e_id ?l) with (e_id <$> l). rewrite list_fmap_delete.
    apply Forall_delete. exact H5.
  - apply Forall_delete. exact H7.
  - apply Forall_delete. exact H8.
  - apply Forall_delete. exact H9.
Qed.

Lemma integrity_handle (db : Database) (r : Time * Request) :
  Integrity db -> Integrity (handle db r).
Proof.
  destruct r as [now req]. intros H.
  destruct req as [body|id body|id|body|id body|id| |params]; simpl.
  - now apply integrity_postAccounts.
  - now apply integrity_putAccounts.
  - now apply integrity_deleteAccounts.
  - now apply integrity_postJournalEntries.
  - now apply integrity_putJournalEntries.
  - now apply integrity_deleteJournalEntries.
  - now apply integrity_reset.
  - now apply integrity_tool_create.
Qed.

End IntegrityKept.

Lemma integrity_run (t0 : Time) (reqs : list (Time * Request)) :
  Integrity (run (newDatabase t0) reqs).
Proof.
  unfold run. generalize (integrity_newDatabase t0). generalize (newDatabase t0).
  induction reqs as [|r reqs IH]; intros db H; simpl; [exact H|].
  apply IH. now apply integrity_handle.
Qed.

(** X1. After any sequence of requests served from the seeded store, the
    identifiers of the accounts, their codes and the identifiers of the
    entries are pairwise distinct, every stored entry has at least two lines,
    every stored line references an existing account, and no stored line has
    both a positive debit and a positive credit. *)
Theorem store_integrity_is_kept (t0 : Time) (reqs : list (Time * Request)) :
  Integrity (run (newDatabase t0) reqs).
Proof.
  pose proof (integrity_run t0 reqs) as H.
  destruct H as [H1 H2 H3 H4 H5 H6 H7 H8 H9].
  constructor; assumption.
Qed.

(** ** Creating and looking up *)

(** X2. On a store that satisfies the integrity invariant, an account that
    [POST /accounts] answers with 201 is afterwards found by its identifier
    and by its code, carries the code, name and category of the body, and
    every other identifier and code is looked up as before; the entries are
    untouched. *)
Theorem created_account_is_found
    (now : Time) (body : AccountBody) (db db' : Database) (account : Account) :
  Integrity db ->
  Routes.postAccounts now body db = (Data 201 account, db') ->
  Db.getAccountById db' (a_id account) = Some account
  /\ Db.getAccountByCode db' (a_code account) = Some account
  /\ ab_code body = Some (a_code account)
  /\ a_name account = ab_name body
  /\ a_category account = ab_category body
  /\ (forall id, id <> a_id account ->
                 Db.getAccountById db' id = Db.getAccountById db id)
  /\ (forall code, code <> a_code account ->
                   Db.getAccountByCode db' code = Db.getAccountByCode db code)
  /\ journalEntries db' = journalEntries db.
Proof.
  intros Hdb. unfold Routes.postAccounts.
  destruct (ab_code body) as [code|]; [|discriminate].
  destruct (ab_type body) as [type|]; [|discriminate].
  destruct (_ || _); [discriminate|].
  destruct (Db.getAccountByCode db code) eqn:Hcode; [discriminate|].
  unfold Db.createAccount. intros E. inversion E; subst; clear E. simpl.
  unfold Db.getAccountByCode in Hcode.
  apply (find_by_key_None a_code String.eqb string_eqb_spec) in Hcode.
  assert (Hid : ~ In (nextUuid db) (map a_id (accounts db))).
  { intros Hin. pose proof (account_ids_drawn db Hdb) as Hd.
    rewrite List.Forall_forall in Hd. specialize (Hd _ Hin). clear - Hd. lia. }
  unfold Db.getAccountById, Db.getAccountByCode. simpl.
  repeat split.
  - rewrite (find_by_key_app a_id Nat.eqb nat_eqb_spec) by exact Hid.
    simpl. now rewrite Nat.eqb_refl.
  - rewrite (find_by_key_app a_code String.eqb string_eqb_spec) by exact Hcode.
    simpl. now rewrite String.eqb_refl.
  - intros id Hne.
    rewrite (find_by_key_app a_id Nat.eqb nat_eqb_spec) by exact Hid. simpl.
    destruct (Nat.eqb_spec (nextUuid db) id); [congruence | reflexivity].
  - intros c Hne.
    rewrite (find_by_key_app a_code String.eqb string_eqb_spec) by exact Hcode. simpl.
    destruct (String.eqb_spec code c); [congruence | reflexivity].
Qed.

Lemma created_account_is_found_witness :
  exists account db',
    Routes.postAccounts 5 Scenario.pettyCash Scenario.afterSale = (Data 201 account, db')
    /\ Db.getAccountById db' (a_id account) = Some account
    /\ Db.getAccountByCode db' "105" = Some account.
Proof.
  eexists. eexists.
  split; [vm_compute; reflexivity|].
  assert (Hint : Integrity Scenario.afterSale)
    by exact (integrity_run 0 [(1, PostJournalEntries Sample.saleBody)]).
  match goal with
  | |- Db.getAccountById ?d (a_id ?a) = _ /\ _ =>
      destruct (created_account_is_found 5 Scenario.pettyCash Scenario.afterSale d a
                  Hint ltac:(vm_compute; reflexivity)) as (H1 & H2 & _)
  end.
  split; [exact H1 | exact H2].
Defined.

(** X3. In every store reached from the seeded one, each listed account is
    the one found by its identifier and the one found by its code. *)
Theorem every_account_is_addressable
    (t0 : Time) (reqs : list (Time * Request)) (account : Account) :
  In account (accounts (run (newDatabase t0) reqs)) ->
  Db.getAccountById (run (newDatabase t0) reqs) (a_id account) = Some account
  /\ Db.getAccountByCode (run (newDatabase t0) reqs) (a_code account) = Some account.
Proof.
  intros Hin. pose proof (integrity_run t0 reqs) as H. split.
  - apply (find_by_key a_id Nat.eqb nat_eqb_spec); [apply H | exact Hin].
  - apply (find_by_key a_code String.eqb string_eqb_spec); [apply H | exact Hin].
Qed.

Lemma every_account_is_addressable_witness :
  exists account,
    In account (accounts Sample.afterRequests)
    /\ a_code account = "101"
    /\ Db.getAccountById Sample.afterRequests (a_id account) = Some account
    /\ Db.getAccountByCode Sample.afterRequests (a_code account) = Some account.
Proof.
  exists (mkAccount 1 "101" (Some "預金") asset (Some "流動資産") None 0 0).
  assert (Hin : In (mkAccount 1 "101" (Some "預金") asset (Some "流動資産") None 0 0)
                   (accounts (run (newDatabase 0) Sample.requests)))
    by (vm_compute; right; left; reflexivity).
  split; [exact Hin|]. split; [reflexivity|].
  exact (every_account_is_addressable 0 Sample.requests _ Hin).
Defined.

(** X4. On a store that satisfies the integrity invariant, a journal entry
    that [POST /journal-entries] answers with 201 is the one
    [GET /journal-entries/:id] then returns; it carries the date and the
    description of the body and, line by line, the accounts and amounts
    submitted; every other identifier still leads to the entry it led to. *)
Theorem created_entry_is_found
    (now : Time) (body : EntryBody) (db db' : Database) (entry : JournalEntry) :
  Integrity db ->
  Routes.postJournalEntries now body db = (Data 201 entry, db') ->
  Reads.getJournalEntry (e_id entry) db' = Ok entry
  /\ e_date entry = eb_date body
  /\ e_description entry = eb_description body
  /\ Some (map (fun line => (l_accountId line, debitAmount line, creditAmount line))
               (e_lines entry))
     = map (fun line => (li_accountId line, li_debitAmount line, li_creditAmount line))
         <$> eb_lines body
  /\ (forall id, id <> e_id entry ->
                 Db.getJournalEntryById db' id = Db.getJournalEntryById db id)
  /\ accounts db' = accounts db.
Proof.
  intros Hdb Hpost. pose proof (postJournalEntries_spec now body db) as Hspec.
  rewrite Hpost in Hspec.
  destruct Hspec as (_ & date & description & lines & Hdate & Hdesc & Hlines & _ & _ & _
                     & _ & _ & _ & Hc).
  pose proof (createJournalEntry_lines (fun id d c => (id, d, c))
                now date description lines db) as Hstored.
  cbv beta in Hstored. rewrite <- Hc in Hstored. simpl in Hstored.
  assert (Hfresh : ~ In (nextUuid db) (map e_id (journalEntries db))).
  { intros Hin. pose proof (entry_ids_drawn db Hdb) as Hd.
    rewrite List.Forall_forall in Hd. specialize (Hd _ Hin). clear - Hd. lia. }
  unfold Db.createJournalEntry in Hc. inversion Hc; subst; clear Hc.
  unfold Reads.getJournalEntry, Db.getJournalEntryById. simpl.
  rewrite (find_by_key_app e_id Nat.eqb nat_eqb_spec) by exact Hfresh.
  simpl. rewrite Nat.eqb_refl.
  split; [reflexivity|]. split; [now rewrite Hdate|]. split; [now rewrite Hdesc|].
  split; [rewrite Hlines; simpl; f_equal; exact Hstored|].
  split; [|reflexivity].
  intros id Hne.
  rewrite (find_by_key_app e_id Nat.eqb nat_eqb_spec) by exact Hfresh. simpl.
  destruct (Nat.eqb_spec (nextUuid db) id); [congruence | reflexivity].
Qed.

Lemma created_entry_is_found_witness :
  exists entry db',
    Routes.postJournalEntries 7 Sample.purchaseBody Scenario.afterSale
    = (Data 201 entry, db')
    /\ Reads.getJournalEntry (e_id entry) db' = Ok entry
    /\ Db.getJournalEntryById db' 19 = Db.getJournalEntryById Scenario.afterSale 19.
Proof.
  eexists. eexists.
  split; [vm_compute; reflexivity|].
  assert (Hint : Integrity Scenario.afterSale)
    by exact (integrity_run 0 [(1, PostJournalEntries Sample.saleBody)]).
  match goal with
  | |- Reads.getJournalEntry (e_id ?e) ?d = _ /\ _ =>
      destruct (created_entry_is_found 7 Sample.purchaseBody Scenario.afterSale d e
                  Hint ltac:(vm_compute; reflexivity)) as (H1 & _ & _ & _ & H2 & _)
  end.
  split; [exact H1|]. apply H2. vm_compute. discriminate.
Defined.

(** X5. On a store that satisfies the integrity invariant,
    [DELETE /journal-entries/:id] answers 404 and changes nothing when no
    entry has the identifier; otherwise it answers 204, the entry can no
    longer be fetched, every other entry is fetched as before, and the
    accounts are untouched. *)
Theorem deleted_entry_is_gone (id : Id) (db : Database) :
  Integrity db ->
  match Db.getJournalEntryById db id with
  | None =>
      Routes.deleteJournalEntries id db = (Error 404 JournalEntryNotFound, db)
  | Some entry =>
      exists db',
        Routes.deleteJournalEntries id db = (NoContent 204, db')
        /\ Reads.getJournalEntry id db' = Ko 404 QJournalEntryNotFound
        /\ (forall id', id' <> id ->
                        Db.getJournalEntryById db' id' = Db.getJournalEntryById db id')
        /\ accounts db' = accounts db
        /\ length (journalEntries db') + 1 = length (journalEntries db)
  end.
Proof.
  intros Hdb. pose proof (entry_ids_distinct db Hdb) as Hnd.
  unfold Routes.deleteJournalEntries, Db.deleteJournalEntry, Reads.getJournalEntry,
    Db.getJournalEntryById.
  destruct (findIndex (fun entry => Nat.eqb (e_id entry) id) (journalEntries db))
    as [index|] eqn:Hi.
  - destruct (findIndex_Some _ _ _ Hi) as (entry & Hl & -> & Hp).
    eexists. split; [reflexivity|]. simpl.
    revert index Hi Hl. generalize dependent (journalEntries db).
    intros entries. induction entries as [|x entries IH]; intros Hnd index Hi Hl;
      [discriminate|].
    simpl in Hnd. apply NoDup_cons in Hnd as [Hx Hnd]. rewrite list_elem_of_In in Hx.
    simpl in Hi. destruct (Nat.eqb_spec (e_id x) id) as [E|E].
    + inversion Hi; subst. simpl.
      assert (Hnone : List.find (fun e => Nat.eqb (e_id e) (e_id x)) entries = None)
        by (apply (find_by_key_None e_id Nat.eqb nat_eqb_spec); exact Hx).
      rewrite Hnone. split; [reflexivity|]. split; [|split; [reflexivity | lia]].
      intros id' Hne. destruct (Nat.eqb_spec (e_id x) id'); [congruence | reflexivity].
    + destruct (findIndex _ entries) as [j|] eqn:Hj; [|discriminate].
      inversion Hi; subst. simpl in Hl. simpl.
      destruct (IH Hnd j eq_refl Hl) as (H1 & H2 & _ & H4).
      destruct (Nat.eqb_spec (e_id x) id); [congruence|].
      split; [exact H1|]. split; [|split; [reflexivity | simpl in *; lia]].
      intros id' Hne. destruct (Nat.eqb_spec (e_id x) id'); [reflexivity | now apply H2].
  - now rewrite (findIndex_None _ _ Hi).
Qed.

Lemma deleted_entry_is_gone_witness :
  exists db',
    Routes.deleteJournalEntries 19 Scenario.afterSale = (NoContent 204, db')
    /\ Reads.getJournalEntry 19 db' = Ko 404 QJournalEntryNotFound.
Proof.
  assert (Hint : Integrity Scenario.afterSale)
    by exact (integrity_run 0 [(1, PostJournalEntries Sample.saleBody)]).
  pose proof (deleted_entry_is_gone 19 Scenario.afterSale Hint) as H.
  destruct (Db.getJournalEntryById Scenario.afterSale 19) eqn:E;
    [|vm_compute in E; discriminate].
  destruct H as (db' & H1 & H2 & _). exists db'. split; assumption.
Defined.

(** ** What the reports depend on *)

Section ReportsFrame.

(** The reports read the accounts and the included entries, nothing else. *)
Lemma reports_frame (db db' : Database) (asOfDate : option string) :
  accounts db' = accounts db ->
  flat_map e_lines (upTo asOfDate (journalEntries db'))
  = flat_map e_lines (upTo asOfDate (journalEntries db)) ->
  Db.getTrialBalance db' asOfDate = Db.getTrialBalance db asOfDate
  /\ Db.getBalanceSheet db' asOfDate = Db.getBalanceSheet db asOfDate
  /\ (forall accountId,
        Db.getAccountBalance db' accountId asOfDate
        = Db.getAccountBalance db accountId asOfDate).
Proof.
  intros Hacc Hlines. split; [|split].
  - unfold Db.getTrialBalance, Db.tallyEntries.
    rewrite !fold_left_lines, Hacc, Hlines. reflexivity.
  - unfold Db.getBalanceSheet. rewrite !fold_left_lines, Hacc, Hlines. reflexivity.
  - intros accountId. unfold Db.getAccountBalance, Db.getAccountById.
    rewrite Hacc. destruct (List.find _ (accounts db)); [|reflexivity].
    rewrite !fold_left_lines, Hlines. reflexivity.
Qed.

Lemma flat_map_insert_same {A B : Type} (f : A -> list B) (l : list A) (i : nat)
    (old new : A) :
  l !! i = Some old -> f new = f old -> flat_map f (<[i := new]> l) = flat_map f l.
Proof.
  revert i. induction l as [|x l IH]; intros i Hi Hf; [reflexivity|].
  destruct i as [|i]; simpl in *.
  - inversion Hi; subst. now rewrite Hf.
  - f_equal. now apply IH.
Qed.

End ReportsFrame.

(** X6. [PUT /journal-entries/:id] never changes the lines of an entry, nor
    the accounts: whatever the body, the trial balance, the balance sheet and
    every account balance computed without an as-of date are the same before
    and after. *)
Theorem entry_update_keeps_undated_reports
    (now : Time) (id : Id) (body : EntryBody) (db : Database) :
  map e_lines (journalEntries (snd (Routes.putJournalEntries now id body db)))
  = map e_lines (journalEntries db)
  /\ Db.getTrialBalance (snd (Routes.putJournalEntries now id body db)) None
     = Db.getTrialBalance db None
  /\ Db.getBalanceSheet (snd (Routes.putJournalEntries now id body db)) None
     = Db.getBalanceSheet db None
  /\ (forall accountId,
        Db.getAccountBalance (snd (Routes.putJournalEntries now id body db)) accountId None
        = Db.getAccountBalance db accountId None).
Proof.
  assert (H : accounts (snd (Routes.putJournalEntries now id body db)) = accounts db
              /\ map e_lines (journalEntries (snd (Routes.putJournalEntries now id body db)))
                 = map e_lines (journalEntries db)).
  { unfold Routes.putJournalEntries, Db.updateJournalEntry.
    destruct (findIndex _ (journalEntries db)) as [index|] eqn:Hi; [|split; reflexivity].
    destruct (findIndex_Some _ _ _ Hi) as (old & Hold & _ & _).
    rewrite Hold. simpl. split; [reflexivity|].
    change (map e_lines ?l) with (e_lines <$> l).
    rewrite list_fmap_insert. apply list_insert_id.
    rewrite list_lookup_fmap, Hold. reflexivity. }
  destruct H as [Hacc Hlines]. split; [exact Hlines|].
  apply reports_frame; [exact Hacc|]. simpl.
  rewrite !flat_map_concat_map. now rewrite Hlines.
Qed.

(** X7. When the body of [PUT /journal-entries/:id] omits the date, the date
    of an existing entry is overwritten by [undefined]: the entry is still
    fetched by its identifier, with its lines, but no report as of a date
    includes it any more and no listing filtered by a start or an end date
    returns it. *)
Theorem entry_update_without_date_hides_entry
    (now : Time) (id : Id) (body : EntryBody) (db : Database) (entry : JournalEntry) :
  Db.getJournalEntryById db id = Some entry ->
  eb_date body = None ->
  exists new,
    Routes.putJournalEntries now id body db
    = (Data 200 new, snd (Routes.putJournalEntries now id body db))
    /\ Db.getJournalEntryById (snd (Routes.putJournalEntries now id body db)) id
       = Some new
    /\ e_date new = None
    /\ e_lines new = e_lines entry
    /\ (forall d other,
          nonEmpty d = true ->
          ~ In new (upTo (Some d)
                      (journalEntries (snd (Routes.putJournalEntries now id body db))))
          /\ ~ In new (Queries.getJournalEntries
                         (snd (Routes.putJournalEntries now id body db)) (Some d) other)
          /\ ~ In new (Queries.getJournalEntries
                         (snd (Routes.putJournalEntries now id body db)) other (Some d))).
Proof.
  intros Hentry Hdate. unfold Db.getJournalEntryById in Hentry.
  destruct (find_Some_findIndex _ _ _ Hentry) as (i & Hi & Hl).
  destruct (findIndex_Some _ _ _ Hi) as (x & Hx & _ & Hp).
  assert (x = entry) by congruence. subst x.
  unfold Routes.putJournalEntries, Db.updateJournalEntry. rewrite Hi, Hl. simpl.
  eexists. split; [reflexivity|]. split.
  { unfold Db.getJournalEntryById. simpl. apply find_insert_first; [exact Hi|].
    simpl. exact Hp. }
  rewrite Hdate. simpl. split; [reflexivity|]. split; [reflexivity|].
  intros d other Hd.
  set (new := Db.spreadEntry entry _ now).
  assert (Hup : dateUpTo d new = false) by reflexivity.
  assert (Hfrom : Queries.dateFrom d new = false) by reflexivity.
  split; [|split].
  - simpl. rewrite Hd. intros Hin. apply filter_In in Hin as [_ Hin]. congruence.
  - unfold Queries.getJournalEntries. simpl. rewrite Hd.
    intros Hin.
    assert (Hin' : In new (List.filter (Queries.dateFrom d)
                             (<[i := new]> (journalEntries db)))).
    { destruct other as [e|]; [|exact Hin].
      destruct (nonEmpty e); [|exact Hin]. apply filter_In in Hin. tauto. }
    apply filter_In in Hin' as [_ Hin']. congruence.
  - unfold Queries.getJournalEntries. simpl. rewrite Hd.
    intros Hin. apply filter_In in Hin as [_ Hin]. congruence.
Qed.

Lemma entry_update_without_date_hides_entry_witness :
  exists new,
    Db.getJournalEntryById
      (snd (Routes.putJournalEntries 9 19 Scenario.undatedBody Scenario.afterSale)) 19
    = Some new
    /\ e_date new = None
    /\ ~ In new (upTo (Some "2024-12-31")
                   (journalEntries
                      (snd (Routes.putJournalEntries 9 19 Scenario.undatedBody
                              Scenario.afterSale)))).
Proof.
  destruct (entry_update_without_date_hides_entry 9 19 Scenario.undatedBody
              Scenario.afterSale _ eq_refl eq_refl)
    as (new & _ & H1 & H2 & _ & H3).
  exists new. split; [exact H1|]. split; [exact H2|].
  apply (H3 "2024-12-31" None). reflexivity.
Defined.

(** ** Entries dated after the as-of date *)

Lemma submit_created (now : Time) (req : CreateRequest) (db db' : Database)
    (entry : JournalEntry) :
  submit now req db = (inr entry, db') ->
  exists date description lines,
    (entry, db') = Db.createJournalEntry now date description lines db.
Proof.
  destruct req as [body|params]; unfold submit.
  - pose proof (postJournalEntries_spec now body db) as Hspec.
    destruct (Routes.postJournalEntries now body db) as [[s e|s err|s] d];
      [|destruct err; discriminate|discriminate].
    simpl. intros E. inversion E; subst.
    destruct Hspec as (_ & date & description & lines & H). exists date, description, lines.
    apply H.
  - pose proof (createJournalEntry_spec now params db) as Hspec.
    destruct (Mcp.createJournalEntry now params db) as [[e|err] d];
      [|destruct err; discriminate].
    simpl. intros E. inversion E; subst.
    destruct Hspec as (date & description & lines & H). eexists date, description, _.
    apply H.
Qed.

(** X8. An entry created, through either adapter, with a date after an as-of
    date changes no report as of that date: trial balance, balance sheet and
    account balances are the same before and after, and so is the income
    statement of every period that ends on that date. *)
Theorem later_entry_keeps_dated_reports
    (now : Time) (req : CreateRequest) (db db' : Database) (entry : JournalEntry)
    (date asOfDate : string) :
  submit now req db = (inr entry, db') ->
  e_date entry = Some date ->
  nonEmpty asOfDate = true ->
  date_le date asOfDate = false ->
  Db.getTrialBalance db' (Some asOfDate) = Db.getTrialBalance db (Some asOfDate)
  /\ Db.getBalanceSheet db' (Some asOfDate) = Db.getBalanceSheet db (Some asOfDate)
  /\ (forall accountId,
        Db.getAccountBalance db' accountId (Some asOfDate)
        = Db.getAccountBalance db accountId (Some asOfDate))
  /\ (forall startDate,
        Queries.getIncomeStatement db' startDate asOfDate
        = Queries.getIncomeStatement db startDate asOfDate).
Proof.
  intros Hsubmit Hdate Hd Hlater.
  destruct (submit_created now req db db' entry Hsubmit)
    as (date' & description & lines & Hc).
  assert (Hacc : accounts db' = accounts db)
    by (unfold Db.createJournalEntry in Hc; inversion Hc; reflexivity).
  assert (Hentries : journalEntries db' = journalEntries db ++ [entry])
    by (unfold Db.createJournalEntry in Hc; inversion Hc; reflexivity).
  assert (Hup : dateUpTo asOfDate entry = false)
    by (unfold dateUpTo; now rewrite Hdate).
  assert (Hfilter : List.filter (dateUpTo asOfDate) (journalEntries db')
                    = List.filter (dateUpTo asOfDate) (journalEntries db)).
  { rewrite Hentries, List.filter_app. simpl. rewrite Hup. apply app_nil_r. }
  assert (H := reports_frame db db' (Some asOfDate) Hacc).
  simpl in H. rewrite Hd, Hfilter in H.
  destruct (H eq_refl) as (H1 & H2 & H3).
  split; [exact H1|]. split; [exact H2|]. split; [exact H3|].
  intros startDate. unfold Queries.getIncomeStatement.
  assert (Hperiod :
            List.filter (fun e => Queries.dateFrom startDate e && dateUpTo asOfDate e)
                        (journalEntries db')
            = List.filter (fun e => Queries.dateFrom startDate e && dateUpTo asOfDate e)
                          (journalEntries db)).
  { rewrite Hentries, List.filter_app. simpl. rewrite Hup, andb_false_r.
    apply app_nil_r. }
  rewrite Hperiod.
  assert (Hline : forall totals line,
             Queries.incomeLine db' totals line = Queries.incomeLine db totals line).
  { intros [r e] line. unfold Queries.incomeLine, Db.getAccountById.
    now rewrite Hacc. }
  erewrite (fold_left_pointwise
              (fun totals entry0 => fold_left (Queries.incomeLine db') (e_lines entry0) totals)
              (fun totals entry0 => fold_left (Queries.incomeLine db) (e_lines entry0) totals)).
  - reflexivity.
  - intros totals e. apply fold_left_pointwise. apply Hline.
Qed.

Lemma later_entry_keeps_dated_reports_witness :
  exists entry db',
    submit 7 (ViaRest Sample.purchaseBody) Scenario.afterSale = (inr entry, db')
    /\ Db.getTrialBalance db' (Some "2023-12-31")
       = Db.getTrialBalance Scenario.afterSale (Some "2023-12-31")
    /\ Db.getBalanceSheet db' (Some "2023-12-31")
       = Db.getBalanceSheet Scenario.afterSale (Some "2023-12-31").
Proof.
  eexists. eexists. split; [vm_compute; reflexivity|].
  match goal with
  | |- Db.getTrialBalance ?d _ = _ /\ _ =>
      destruct (later_entry_keeps_dated_reports 7 (ViaRest Sample.purchaseBody)
                  Scenario.afterSale d _ "2024-01-15" "2023-12-31"
                  ltac:(vm_compute; reflexivity) eq_refl eq_refl eq_refl)
        as (H1 & H2 & _)
  end.
  split; [exact H1 | exact H2].
Defined.

(** ** The two adapters agree *)

Section AdaptersAgree.

Lemma dateRegex_nonEmpty (date : string) : Mcp.dateRegex date = true -> nonEmpty date = true.
Proof. destruct date; [discriminate | reflexivity]. Qed.

Lemma sums_agree_on_defaulted (lines : list LineInput) :
  Routes.sumDebit (map defaulted lines) = Mcp.sumDebit (map defaulted lines)
  /\ Routes.sumCredit (map defaulted lines) = Mcp.sumCredit (map defaulted lines).
Proof.
  unfold Routes.sumDebit, Routes.sumCredit, Mcp.sumDebit, Mcp.sumCredit.
  generalize Number.zero at 1 2 3 4. induction lines as [|line lines IH]; intros z.
  - split; reflexivity.
  - simpl. rewrite !orZero_idem.
    destruct (IH (Number.add z (Number.orZero (li_debitAmount line)))) as [H1 _].
    destruct (IH (Number.add z (Number.orZero (li_creditAmount line)))) as [_ H2].
    split; assumption.
Qed.

Lemma bothSides_agree_on_defaulted (lines : list LineInput) :
  some Routes.bothSides (map defaulted lines) = some Mcp.bothSides (map defaulted lines).
Proof.
  unfold some. induction lines as [|line lines IH]; [reflexivity|].
  simpl. rewrite IH. f_equal.
  unfold Routes.bothSides, Mcp.bothSides, defaulted. simpl. now rewrite !orZero_idem.
Qed.

Lemma resolved_lines_known (db : Database) (lines : list McpLine) :
  Routes.firstUnknownAccount db (map defaulted (omap (toolLine db) lines)) = None.
Proof.
  apply firstUnknownAccount_resolved. intros line Hin.
  apply in_map_iff in Hin as (r & <- & Hr). simpl.
  apply list_elem_of_In, list_elem_of_omap in Hr as (l & _ & Hl).
  apply toolLine_account in Hl. intros Hnone.
  apply (find_hasId_in (accounts db) (li_accountId r)) in Hnone. contradiction.
Qed.

Lemma length_resolved (db : Database) (lines : list McpLine) :
  Forall (fun line => is_Some (toolLine db line)) lines ->
  length (map defaulted (omap (toolLine db) lines)) = length lines.
Proof.
  rewrite length_map. induction 1 as [|l ls [r Hr] _ IH]; [reflexivity|].
  simpl. rewrite Hr. simpl. f_equal. exact IH.
Qed.

End AdaptersAgree.

(** X9. A tool call whose date has the form YYYY-MM-DD and whose account
    codes all resolve has the outcome of the REST request that submits the
    same date, description and lines (on the resolved accounts, missing
    amounts counting for 0): the same rejection, or the same stored entry and
    the same store. *)
Theorem tool_and_rest_create_agree
    (now : Time) (params : McpParams) (db : Database) (date : string)
    (lines : list McpLine) :
  p_date params = Some date ->
  Mcp.dateRegex date = true ->
  p_lines params = Some lines ->
  Forall (fun line => is_Some (toolLine db line)) lines ->
  submit now (ViaTool params) db = submit now (ViaRest (restBodyOf db params)) db.
Proof.
  intros Hdate Hre Hlines Hall.
  unfold submit, Mcp.createJournalEntry, Routes.postJournalEntries, restBodyOf.
  rewrite Hdate, Hlines. simpl.
  rewrite (dateRegex_nonEmpty date Hre), Hre. simpl.
  destruct (p_description params) as [description|]; [|reflexivity].
  destruct (nonEmpty description); [|reflexivity]. simpl.
  rewrite (length_resolved db lines Hall).
  destruct (Nat.ltb (length lines) 2); [reflexivity|].
  rewrite (resolveLines_resolved db lines Hall), resolved_lines_known.
  destruct (sums_agree_on_defaulted (omap (toolLine db) lines)) as [-> ->].
  destruct (Number.gt _ _); [reflexivity|].
  rewrite bothSides_agree_on_defaulted.
  destruct (some Mcp.bothSides _); [reflexivity|].
  simpl. rewrite ?(length_resolved db lines Hall). reflexivity.
Qed.

Lemma tool_and_rest_create_agree_witness :
  submit 1 (ViaTool Sample.emptyLinesParams) Sample.db0
  = submit 1 (ViaRest (restBodyOf Sample.db0 Sample.emptyLinesParams)) Sample.db0.
Proof.
  apply (tool_and_rest_create_agree 1 Sample.emptyLinesParams Sample.db0 "2024-01-15"
           _ eq_refl eq_refl eq_refl).
  repeat constructor; vm_compute; eauto.
Defined.

(** ** Resetting the store *)

Lemma upTo_nil (asOfDate : option string) : upTo asOfDate [] = [].
Proof. destruct asOfDate as [d|]; [|reflexivity]. simpl. now destruct (nonEmpty d). Qed.

(** X10. Whatever the store held, after [resetDatabase] it holds the nineteen
    seed accounts and no entry, and every report is zero for every as-of
    date: both totals of the trial balance, the three totals of the balance
    sheet, and the balance of every account. *)
Theorem reset_zeroes_every_report
    (now : Time) (db : Database) (asOfDate : option string) :
  map a_code (accounts (resetDatabase now db))
  = ["100"; "101"; "110"; "120"; "150"; "160"; "200"; "210"; "250"; "300"; "310";
     "400"; "410"; "500"; "510"; "520"; "530"; "540"; "550"]
  /\ journalEntries (resetDatabase now db) = []
  /\ Db.getTrialBalance (resetDatabase now db) asOfDate
     = {| totalDebit := Num 0; totalCredit := Num 0 |}
  /\ Db.getBalanceSheet (resetDatabase now db) asOfDate
     = {| bs_assets := Num 0; bs_liabilities := Num 0; bs_equity := Num 0 |}
  /\ (forall accountId,
        Db.getAccountBalance (resetDatabase now db) accountId asOfDate = Num 0).
Proof.
  split; [reflexivity|]. split; [reflexivity|]. split; [|split].
  - unfold Db.getTrialBalance. simpl journalEntries. rewrite upTo_nil.
    vm_compute. reflexivity.
  - unfold Db.getBalanceSheet. simpl journalEntries. rewrite upTo_nil.
    vm_compute. reflexivity.
  - intros accountId. unfold Db.getAccountBalance. simpl journalEntries.
    rewrite upTo_nil. now destruct (Db.getAccountById _ accountId).
Qed.

(** ** The dispatcher of the tool server *)

Section Dispatch.

Lemma equals_true (value : option string) (literal : string) :
  Tools.equals value literal = true <-> value = Some literal.
Proof.
  destruct value as [s|]; simpl; [|split; discriminate].
  rewrite String.eqb_eq. split; congruence.
Qed.




(** The store after a tool call is the store before it, or the one the
    [create_journal_entry] tool made. *)
Lemma callTool_store (now : Time) (today : string) (name : option string)
    (args : option ToolArgs) (db : Database) (output : ToolOutput) (db' : Database) :
  Tools.callTool now today name args db = Tools.Returned output db' ->
  db' = db
  \/ (name = Some "create_journal_entry"
      /\ exists params, db' = snd (Mcp.createJournalEntry now params db)).
Proof.
  unfold Tools.callTool.
  destruct (Tools.equals name "create_journal_entry") eqn:E.
  - apply equals_true in E. destruct args as [params|]; [|discriminate]. simpl.
    destruct (Mcp.createJournalEntry now (Tools.createParams params) db) as [r d] eqn:Hc.
    intros H. inversion H; subst. right. split; [reflexivity|].
    exists (Tools.createParams params). now rewrite Hc.
  - repeat match goal with
           | |- context [Tools.equals name ?lit] => destruct (Tools.equals name lit)
           end;
      try discriminate;
      (destruct args as [params|]; [|discriminate]); simpl;
      intros H; inversion H; now left.
Qed.

End Dispatch.



(** X12. Every response of [handleRequest] echoes the identifier of the
    request and carries either a result or an error, never both; and a
    request that is answered by an error leaves the store as it was. *)
Theorem response_has_result_or_error
    (now : Time) (today : string) (request : JSONRPCRequest) (db : Database) :
  rs_id (fst (Tools.handleRequest now today request db)) = rq_id request
  /\ (rs_result (fst (Tools.handleRequest now today request db)) = None
      <-> rs_error (fst (Tools.handleRequest now today request db)) <> None)
  /\ (rs_error (fst (Tools.handleRequest now today request db)) <> None ->
      snd (Tools.handleRequest now today request db) = db).
Proof.
  unfold Tools.handleRequest.
  destruct (Tools.equals (rq_method request) "initialize");
    [simpl; repeat split; try discriminate; congruence|].
  destruct (Tools.equals (rq_method request) "tools/list");
    [simpl; repeat split; try discriminate; congruence|].
  destruct (Tools.equals (rq_method request) "tools/call").
  - destruct (rq_params request) as [params|];
      [|simpl; repeat split; try discriminate; congruence].
    destruct (Tools.callTool _ _ _ _ _); simpl; repeat split;
      try discriminate; congruence.
  - destruct (Tools.equals (rq_method request) "test/reset");
      simpl; repeat split; try discriminate; congruence.
Qed.

(** X13. Only two requests can change the store: [test/reset], and a
    [tools/call] of [create_journal_entry]. *)
Theorem only_create_and_reset_change_the_store
    (now : Time) (today : string) (request : JSONRPCRequest) (db : Database) :
  snd (Tools.handleRequest now today request db) <> db ->
  rq_method request = Some "test/reset"
  \/ (rq_method request = Some "tools/call"
      /\ exists params,
           rq_params request = Some params
           /\ cp_name params = Some "create_journal_entry").
Proof.
  unfold Tools.handleRequest.
  destruct (Tools.equals (rq_method request) "initialize"); [simpl; congruence|].
  destruct (Tools.equals (rq_method request) "tools/list"); [simpl; congruence|].
  destruct (Tools.equals (rq_method request) "tools/call") eqn:Hcall.
  - apply equals_true in Hcall.
    destruct (rq_params request) as [params|]; [|simpl; congruence].
    destruct (Tools.callTool now today (cp_name params) (cp_arguments params) db)
      as [output db'| |] eqn:Hc; simpl; try congruence.
    intros Hne. right. split; [exact Hcall|]. exists params. split; [reflexivity|].
    destruct (callTool_store _ _ _ _ _ _ _ Hc) as [->|[Hname _]];
      [congruence | exact Hname].
  - destruct (Tools.equals (rq_method request) "test/reset") eqn:Hreset;
      [|simpl; congruence].
    apply equals_true in Hreset. now left.
Qed.

Lemma only_create_and_reset_change_the_store_witness :
  snd (Tools.handleRequest 1 "2024-06-30" Wire.saleCall Sample.db0) <> Sample.db0
  /\ (rq_method Wire.saleCall = Some "test/reset"
      \/ (rq_method Wire.saleCall = Some "tools/call"
          /\ exists params,
               rq_params Wire.saleCall = Some params
               /\ cp_name params = Some "create_journal_entry")).
Proof.
  assert (H : snd (Tools.handleRequest 1 "2024-06-30" Wire.saleCall Sample.db0)
              <> Sample.db0).
  { intros E. apply (f_equal (fun d => length (journalEntries d))) in E.
    vm_compute in E. discriminate. }
  split; [exact H|].
  exact (only_create_and_reset_change_the_store 1 "2024-06-30" Wire.saleCall
           Sample.db0 H).
Defined.

Lemma integrity_handleRequest
    (now : Time) (today : string) (request : JSONRPCRequest) (db : Database) :
  Integrity db -> Integrity (snd (Tools.handleRequest now today request db)).
Proof.
  intros H. unfold Tools.handleRequest.
  destruct (Tools.equals (rq_method request) "initialize"); [exact H|].
  destruct (Tools.equals (rq_method request) "tools/list"); [exact H|].
  destruct (Tools.equals (rq_method request) "tools/call").
  - destruct (rq_params request) as [params|]; [|exact H].
    destruct (Tools.callTool now today (cp_name params) (cp_arguments params) db)
      as [output db'| |] eqn:Hc; simpl; try exact H.
    destruct (callTool_store _ _ _ _ _ _ _ Hc) as [->|[_ [p ->]]]; [exact H|].
    now apply integrity_tool_create.
  - destruct (Tools.equals (rq_method request) "test/reset"); [|exact H].
    simpl. now apply integrity_reset.
Qed.

(** X14. The dispatcher keeps the integrity of the store: whatever the
    request, the store it leaves satisfies the invariant if the store it
    found did. *)
Theorem handleRequest_keeps_integrity
    (now : Time) (today : string) (request : JSONRPCRequest) (db : Database) :
  Integrity db -> Integrity (snd (Tools.handleRequest now today request db)).
Proof.
  intros H. pose proof (integrity_handleRequest now today request db H) as H'.
  destruct H' as [H1 H2 H3 H4 H5 H6 H7 H8 H9]. constructor; assumption.
Qed.

Lemma handleRequest_keeps_integrity_witness :
  Integrity (snd (Tools.handleRequest 1 "2024-06-30" Wire.saleCall Sample.db0)).
Proof.
  apply (handleRequest_keeps_integrity 1 "2024-06-30" Wire.saleCall Sample.db0).
  exact (integrity_newDatabase 0).
Defined.

(** ** The main loop: framing of the input *)

Section Framing.

Lemma splitNewline_nonempty (s : string) : splitNewline s <> [].
Proof.
  destruct s as [|c r]; simpl; [discriminate|].
  destruct (Ascii.eqb c "010"%char); [discriminate|].
  destruct (splitNewline r); discriminate.
Qed.

Lemma removelast_cons {A : Type} (x : A) (l : list A) :
  l <> [] -> removelast (x :: l) = x :: removelast l.
Proof. destruct l; [congruence | reflexivity]. Qed.

Lemma last_cons {A : Type} (x d : A) (l : list A) :
  l <> [] -> List.last (x :: l) d = List.last l d.
Proof. destruct l; [congruence | reflexivity]. Qed.

Lemma last_app_nonempty {A : Type} (l k : list A) (d : A) :
  k <> [] -> List.last (l ++ k) d = List.last k d.
Proof.
  induction l as [|x l IH]; intros Hk; [reflexivity|].
  change ((x :: l) ++ k) with (x :: (l ++ k)).
  rewrite last_cons; [now apply IH|].
  intros E. apply app_eq_nil in E. tauto.
Qed.

Lemma string_app_assoc (a b c : string) : a +:+ (b +:+ c) = (a +:+ b) +:+ c.
Proof.
  induction a as [|x a IH]; [reflexivity|].
  change (String x (a +:+ (b +:+ c)) = String x ((a +:+ b) +:+ c)). now rewrite IH.
Qed.

(** Splitting a concatenation: the complete lines of the first part, then
    the split of its unfinished line followed by the second part. *)
Lemma splitNewline_app (s t : string) :
  splitNewline (s +:+ t)
  = removelast (splitNewline s)
    ++ splitNewline (List.last (splitNewline s) EmptyString +:+ t).
Proof.
  induction s as [|c r IH]; [reflexivity|].
  change (String c r +:+ t) with (String c (r +:+ t)).
  cbn [splitNewline]. destruct (Ascii.eqb c "010"%char) eqn:Ec.
  - rewrite removelast_cons, last_cons by apply splitNewline_nonempty.
    simpl. now rewrite IH.
  - rewrite IH. destruct (splitNewline r) as [|p [|p' ps]] eqn:Hr.
    + exfalso. now apply (splitNewline_nonempty r).
    + simpl. rewrite Ec. reflexivity.
    + rewrite !removelast_cons, !last_cons by discriminate. reflexivity.
Qed.

Context (isBlank : string -> bool) (parse : string -> option JSONRPCRequest).

Lemma serveLine_written (now : Time) (today : string) (line : string)
    (written : list Output) (db : Database) :
  serveLine isBlank parse now today (written, db) line
  = (written ++ fst (serveLine isBlank parse now today ([], db) line),
     snd (serveLine isBlank parse now today ([], db) line)).
Proof.
  unfold serveLine. destruct (isBlank line); [simpl; now rewrite app_nil_r|].
  destruct (parse line) as [request|]; [|reflexivity].
  destruct (Tools.handleRequest now today request db). reflexivity.
Qed.

(** The loop over the lines appends to what was already written. *)
Lemma serveLines_written (now : Time) (today : string) (lines : list string)
    (written : list Output) (db : Database) :
  fold_left (serveLine isBlank parse now today) lines (written, db)
  = (written ++ fst (fold_left (serveLine isBlank parse now today) lines ([], db)),
     snd (fold_left (serveLine isBlank parse now today) lines ([], db))).
Proof.
  revert written db. induction lines as [|line lines IH]; intros written db.
  - simpl. now rewrite app_nil_r.
  - cbn [fold_left]. rewrite (serveLine_written now today line written db).
    destruct (serveLine isBlank parse now today ([], db) line) as [w1 d1].
    cbn [fst snd]. rewrite (IH (written ++ w1) d1), (IH w1 d1).
    cbn [fst snd]. now rewrite app_assoc.
Qed.

Lemma serveLines_integrity (now : Time) (today : string) (lines : list string)
    (written : list Output) (db : Database) :
  Integrity db ->
  Integrity (snd (fold_left (serveLine isBlank parse now today) lines (written, db))).
Proof.
  revert written db. induction lines as [|line lines IH]; intros written db H;
    [exact H|].
  cbn [fold_left]. unfold serveLine at 2.
  destruct (isBlank line); [now apply IH|].
  destruct (parse line) as [request|]; [|now apply IH].
  pose proof (integrity_handleRequest now today request db H) as H'.
  destruct (Tools.handleRequest now today request db) as [response db'].
  now apply IH.
Qed.

End Framing.

(** X15. The main loop does not depend on how the input is cut into chunks:
    serving a chunk that is the concatenation of two writes the same
    responses in the same order, leaves the same store and keeps the same
    unfinished line in the buffer as serving the two chunks one after the
    other. *)
Theorem serving_is_independent_of_chunking
    (isBlank : string -> bool) (parse : string -> option JSONRPCRequest)
    (now : Time) (today : string) (buffer : string) (db : Database)
    (chunk1 chunk2 : string) :
  onData isBlank parse now today buffer db (chunk1 +:+ chunk2)
  = onDataTwice isBlank parse now today buffer db chunk1 chunk2.
Proof.
  unfold onDataTwice, onData.
  rewrite string_app_assoc, splitNewline_app.
  set (lines1 := removelast (splitNewline (buffer +:+ chunk1))).
  set (rest := splitNewline (List.last (splitNewline (buffer +:+ chunk1)) EmptyString
                             +:+ chunk2)).
  assert (Hrest : rest <> []) by apply splitNewline_nonempty.
  assert (Hlast : List.last (lines1 ++ rest) EmptyString = List.last rest EmptyString)
    by now apply last_app_nonempty.
  assert (Hremove : removelast (lines1 ++ rest) = lines1 ++ removelast rest)
    by now apply removelast_app.
  rewrite Hlast, Hremove, fold_left_app.
  destruct (fold_left (serveLine isBlank parse now today) lines1 ([], db))
    as [written1 db1].
  rewrite serveLines_written.
  destruct (fold_left (serveLine isBlank parse now today) (removelast rest) ([], db1))
    as [written2 db2].
  reflexivity.
Qed.

(** X16. Whatever bytes arrive, the main loop keeps the integrity of the
    store. *)
Theorem main_loop_keeps_integrity
    (isBlank : string -> bool) (parse : string -> option JSONRPCRequest)
    (now : Time) (today : string) (buffer : string) (db : Database) (chunk : string) :
  Integrity db ->
  Integrity (snd (snd (onData isBlank parse now today buffer db chunk))).
Proof.
  intros H. unfold onData. simpl. now apply serveLines_integrity.
Qed.

Lemma main_loop_keeps_integrity_witness :
  length (journalEntries
            (snd (snd (onData Wire.isBlank Wire.parse 1 "2024-06-30" "sa" Sample.db0
                         (String.append "le" (String "010"%char "junk"))))))
  = 1
  /\ Integrity (snd (snd (onData Wire.isBlank Wire.parse 1 "2024-06-30" "sa" Sample.db0
                            (String.append "le" (String "010"%char "junk"))))).
Proof.
  split; [vm_compute; reflexivity|].
  apply (main_loop_keeps_integrity Wire.isBlank Wire.parse 1 "2024-06-30" "sa"
           Sample.db0).
  exact (integrity_newDatabase 0).
Defined.

(** ** The T-account *)

Section TAccountFacts.






Context (localeLe : string -> string -> bool).



Hypothesis localeLe_total : forall a b, localeLe a b = true \/ localeLe b a = true.




End TAccountFacts.




(** ** The income statement *)

Section IncomeStatementFacts.

Lemma add_comm_eqv (x y : number) : Number.eqv (Number.add x y) (Number.add y x).
Proof. destruct x, y; simpl; try exact I. lra. Qed.





End IncomeStatementFacts.

Section IncomeStatementTotals.

Variable db : Database.
Hypothesis ids_distinct : NoDup (map a_id (accounts db)).





End IncomeStatementTotals.



(** ** The balance through both adapters *)

(** X20. In every store reached from the seeded one, the [get_account_balance]
    tool called with the code of a listed account reports that account and
    the balance that [GET /balances/:accountId] reports for its identifier,
    for the same as-of date. *)
Theorem tool_and_rest_balance_agree
    (t0 : Time) (reqs : list (Time * Request)) (today : string) (account : Account)
    (args : ToolArgs) :
  In account (accounts (run (newDatabase t0) reqs)) ->
  ta_accountCode args = Some (a_code account) ->
  nonEmpty (a_code account) = true ->
  exists balance,
    Tools.getAccountBalance today args (run (newDatabase t0) reqs)
    = BalanceOut (a_code account) (a_name account) (a_type account) balance
                 (orToday (ta_asOfDate args) today)
    /\ Reads.getBalance today (a_id account) (ta_asOfDate args)
         (run (newDatabase t0) reqs)
       = Ok {| b_accountId := a_id account; b_accountCode := a_code account;
               b_accountName := a_name account; b_accountType := a_type account;
               b_balance := balance;
               b_asOfDate := orToday (ta_asOfDate args) today |}.
Proof.
  intros Hin Hcode Hne. pose proof (integrity_run t0 reqs) as H.
  set (db := run (newDatabase t0) reqs) in *.
  assert (Hid : Db.getAccountById db (a_id account) = Some account)
    by (apply (find_by_key a_id Nat.eqb nat_eqb_spec); [apply H | exact Hin]).
  assert (Hc : Db.getAccountByCode db (a_code account) = Some account)
    by (apply (find_by_key a_code String.eqb string_eqb_spec); [apply H | exact Hin]).
  exists (Db.getAccountBalance db (a_id account) (ta_asOfDate args)).
  unfold Tools.getAccountBalance, Reads.getBalance.
  rewrite Hcode, Hne, Hc, Hid. split; reflexivity.
Qed.

Lemma tool_and_rest_balance_agree_witness :
  exists balance,
    Tools.getAccountBalance "2024-06-30"
      (mkToolArgs None None None (Some "400") None None None None)
      Sample.afterRequests
    = BalanceOut "400" (Some "売上") revenue balance "2024-06-30"
    /\ Number.eqv balance (Num 10000).
Proof.
  destruct (tool_and_rest_balance_agree 0 Sample.requests "2024-06-30"
              (mkAccount 11 "400" (Some "売上") revenue (Some "売上高") None 0 0)
              (mkToolArgs None None None (Some "400") None None None None))
    as (balance & H1 & H2).
  - vm_compute. do 11 right. left. reflexivity.
  - reflexivity.
  - reflexivity.
  - exists balance. split; [exact H1|].
    vm_compute in H2. inversion H2. vm_compute. reflexivity.
Defined.
